(** * Graphcore tutorials: a shallow embedding of the scripts' host-side logic

    The repository is a set of stand-alone Python scripts.  What they
    compute themselves (as opposed to what they delegate to TensorFlow,
    PyTorch or PopTorch) is integer arithmetic on dataset lengths, command
    line handling, a version guard, accuracy and throughput arithmetic and
    the life cycle of the asynchronous data loaders.  Those parts are
    embedded here, one module per script, and the properties of the
    specification are stated and proved over them.

    Python integers are unbounded: they are [Z].  Python's [//] and [%] on
    integers are floor division and the remainder that takes the sign of the
    divisor, which is what [Z.div] and [Z.modulo] compute; with a zero
    divisor Python raises [ZeroDivisionError], which is written out. *)

From Stdlib Require Import ZArith QArith Qround List String Ascii Bool Lia Lqa.
Import ListNotations.

Local Open Scope Z_scope.

(** ** Python results: a value or a raised exception *)

Inductive exn : Type :=
| ZeroDivisionError
| ImportError
| IndexError
| StopIteration
| ValueError
| SystemExit.

Inductive result (A : Type) : Type :=
| Ok (a : A)
| Raise (e : exn).

Arguments Ok {A} a.
Arguments Raise {A} e.

Definition rbind {A B : Type} (c : result A) (k : A -> result B) : result B :=
  match c with
  | Ok a => k a
  | Raise e => Raise e
  end.

Declare Scope py_scope.
Delimit Scope py_scope with py.
Notation "x <- c ;; k" := (rbind c (fun x => k))
  (at level 61, c at next level, right associativity) : py_scope.

(** [a // b] on Python integers. *)
Definition py_floordiv (a b : Z) : result Z :=
  if b =? 0 then Raise ZeroDivisionError else Ok (a / b).

(** [a % b] on Python integers. *)
Definition py_mod (a b : Z) : result Z :=
  if b =? 0 then Raise ZeroDivisionError else Ok (a mod b).

(** ** tutorials/tensorflow2/keras/demo_code_only.py *)

Module KerasDemo.

Local Open Scope py_scope.

(** Line 26. *)
Definition batch_size : Z := 64.

(** Lines 87-88:
<<
def make_divisible(number, divisor):
    return number - number % divisor
>> *)
Definition make_divisible (number divisor : Z) : result Z :=
  r <- py_mod number divisor ;;
  Ok (number - r).

(** Lines 94 and 98 (first IPU section): the length is rounded to the batch
    size. *)
Definition adjust_ipu (data_len : Z) : result Z :=
  make_divisible data_len batch_size.

(** Lines 125-127 and 130-132 (steps_per_execution section).  The pair is
    (steps_per_execution, data_len) as left in the two variables. *)
Definition adjust_steps_per_execution (data_len : Z) : result (Z * Z) :=
  steps_per_execution <- py_floordiv data_len batch_size ;;
  data_len' <- make_divisible data_len (steps_per_execution * batch_size) ;;
  Ok (steps_per_execution, data_len').

Module Replication.

(** Line 154: [num_ipus = num_replicas = 2]. *)
Definition num_replicas : Z := 2.
Definition num_ipus : Z := 2.

(** Lines 160-162 (and 167-169 for the test set):
<<
train_steps_per_execution = train_data_len // (batch_size * num_replicas)
train_steps_per_execution = make_divisible(train_steps_per_execution, num_replicas)
>> *)
Definition steps_per_execution (data_len : Z) : result Z :=
  steps <- py_floordiv data_len (batch_size * num_replicas) ;;
  make_divisible steps num_replicas.

(** The second argument of the call on line 163 (170). *)
Definition divisor (steps : Z) : Z := steps * batch_size.

(** Lines 159-163 (166-170): the steps-per-execution value and the adjusted
    length. *)
Definition adjust (data_len : Z) : result (Z * Z) :=
  steps <- steps_per_execution data_len ;;
  data_len' <- make_divisible data_len (divisor steps) ;;
  Ok (steps, data_len').

End Replication.

Module Pipelining.

(** Lines 196-198 and 202. *)
Definition num_ipus : Z := 2.
Definition num_replicas : Z := num_ipus / 2.
Definition gradient_accumulation_steps_per_replica : Z := 8.
Definition total_gradient_accumulation_steps : Z :=
  gradient_accumulation_steps_per_replica * num_replicas.

(** Lines 206-208 (and 213-215 for the test set). *)
Definition steps_per_execution (data_len : Z) : result Z :=
  steps <- py_floordiv data_len (batch_size * num_replicas) ;;
  make_divisible steps total_gradient_accumulation_steps.

(** The second argument of the call on line 209 (216). *)
Definition divisor (steps : Z) : Z := steps * batch_size.

(** Lines 205-209 (212-216). *)
Definition adjust (data_len : Z) : result (Z * Z) :=
  steps <- steps_per_execution data_len ;;
  data_len' <- make_divisible data_len (divisor steps) ;;
  Ok (steps, data_len').

End Pipelining.

End KerasDemo.

(** ** Predicates used to state the properties *)

(** The property C2 asks of an adjustment: it yields a steps-per-execution
    value and a length, and the length is a multiple of batch size times
    steps per execution times replica count. *)
Definition adjusted_to_multiple (adjust : Z -> result (Z * Z))
  (num_replicas data_len : Z) : Prop :=
  exists steps data_len' : Z,
    adjust data_len = Ok (steps, data_len') /\
    (KerasDemo.batch_size * steps * num_replicas | data_len').

(** ** simple_applications/pytorch/mnist/mnist_poptorch_code_only.py

    Floating-point values ([--lr], accuracies) are carried as rationals:
    the script only stores, adds and divides them, and the properties below
    are about which value reaches which place and about bounds that exact
    arithmetic decides. *)

Module PopTorchMNIST.

(** *** The command line (lines 17-24)

    [argparse] converts the text after a flag with [int] or [float] before
    storing it; an occurrence of a flag is represented by the flag and the
    converted value.  Every flag has the default action [store]: of several
    occurrences the last one stays. *)
Inductive cli_arg : Type :=
| BatchSize (v : Z)          (* --batch-size v *)
| DeviceIterations (v : Z)   (* --device-iterations v *)
| TestBatchSize (v : Z)      (* --test-batch-size v *)
| Epochs (v : Z)             (* --epochs v *)
| Lr (v : Q).                (* --lr v *)

(** The namespace [parser.parse_args()] returns, one attribute per flag. *)
Record Namespace : Type := {
  batch_size : Z;
  device_iterations : Z;
  test_batch_size : Z;
  epochs : Z;
  lr : Q
}.

(** The [default=] values of lines 19-23. *)
Definition defaults : Namespace :=
  {| batch_size := 8;
     device_iterations := 50;
     test_batch_size := 80;
     epochs := 10;
     lr := 0.05%Q |}.

Definition store (ns : Namespace) (a : cli_arg) : Namespace :=
  match a with
  | BatchSize v =>
      {| batch_size := v; device_iterations := device_iterations ns;
         test_batch_size := test_batch_size ns; epochs := epochs ns; lr := lr ns |}
  | DeviceIterations v =>
      {| batch_size := batch_size ns; device_iterations := v;
         test_batch_size := test_batch_size ns; epochs := epochs ns; lr := lr ns |}
  | TestBatchSize v =>
      {| batch_size := batch_size ns; device_iterations := device_iterations ns;
         test_batch_size := v; epochs := epochs ns; lr := lr ns |}
  | Epochs v =>
      {| batch_size := batch_size ns; device_iterations := device_iterations ns;
         test_batch_size := test_batch_size ns; epochs := v; lr := lr ns |}
  | Lr v =>
      {| batch_size := batch_size ns; device_iterations := device_iterations ns;
         test_batch_size := test_batch_size ns; epochs := epochs ns; lr := v |}
  end.

Definition parse_args (argv : list cli_arg) : Namespace :=
  fold_left store argv defaults.

(** The value given on a flag: that of its last occurrence, if any. *)
Fixpoint given {A : Type} (pick : cli_arg -> option A) (argv : list cli_arg)
  : option A :=
  match argv with
  | [] => None
  | a :: rest =>
      match given pick rest with
      | Some v => Some v
      | None => pick a
      end
  end.

Definition pick_batch_size (a : cli_arg) : option Z :=
  match a with BatchSize v => Some v | _ => None end.
Definition pick_device_iterations (a : cli_arg) : option Z :=
  match a with DeviceIterations v => Some v | _ => None end.
Definition pick_test_batch_size (a : cli_arg) : option Z :=
  match a with TestBatchSize v => Some v | _ => None end.
Definition pick_epochs (a : cli_arg) : option Z :=
  match a with Epochs v => Some v | _ => None end.
Definition pick_lr (a : cli_arg) : option Q :=
  match a with Lr v => Some v | _ => None end.

(** *** The PopTorch objects the script configures *)

Inductive OutputMode : Type := Default | Final | EveryN | Sum | All.

(** [poptorch.Options]: the two settings the script touches, with the
    library's initial values. *)
Record Options : Type := {
  deviceIterations : Z;
  outputMode : OutputMode
}.

Definition new_Options : Options :=
  {| deviceIterations := 1; outputMode := Default |}.

Definition set_deviceIterations (o : Options) (n : Z) : Options :=
  {| deviceIterations := n; outputMode := outputMode o |}.

Definition set_outputMode (o : Options) (m : OutputMode) : Options :=
  {| deviceIterations := deviceIterations o; outputMode := m |}.

Inductive Split : Type := Train | Test.

(** The arguments a [poptorch.DataLoader] is built from. *)
Record DataLoader : Type := {
  options : Options;
  dataset : Split;
  loader_batch_size : Z;
  shuffle : bool;
  drop_last : bool
}.

(** [poptorch.trainingModel(model, options, optimizer=SGD(..., lr=...))]. *)
Record TrainingModel : Type := {
  training_options : Options;
  optimizer_lr : Q
}.

(** What the top level of the script has set up when the epoch loop on
    line 149 starts. *)
Record Setup : Type := {
  training_data : DataLoader;
  test_data : DataLoader;
  training_model : TrainingModel;
  loop_epochs : Z
}.

(** Lines 9-143, statement by statement; a rebinding shadows the earlier
    binding of the same global. *)
Definition script (argv : list cli_arg) : Setup :=
  let learning_rate : Q := 0.03%Q in                               (* 9 *)
  let epochs_ : Z := 10 in                                         (* 11 *)
  let batch_size_ : Z := 8 in                                      (* 13 *)
  let test_batch_size_ : Z := 80 in                                (* 15 *)
  let opts := parse_args argv in                                   (* 24 *)
  let learning_rate := lr opts in                                  (* 26 *)
  let epochs_ := epochs opts in                                    (* 27 *)
  let batch_size_ := batch_size opts in                            (* 28 *)
  let test_batch_size_ := test_batch_size opts in                  (* 29 *)
  let device_iterations_ := device_iterations opts in              (* 30 *)
  let device_iterations_ : Z := 50 in                              (* 32 *)
  let training_opts := new_Options in                              (* 57 *)
  let training_opts :=
    set_deviceIterations training_opts device_iterations_ in       (* 58 *)
  let training_data_ :=
    {| options := training_opts; dataset := Train;
       loader_batch_size := batch_size_;
       shuffle := true; drop_last := true |} in                    (* 60-66 *)
  let test_data_ :=
    {| options := new_Options; dataset := Test;
       loader_batch_size := test_batch_size_;
       shuffle := true; drop_last := true |} in                    (* 68-74 *)
  let training_opts :=
    set_deviceIterations new_Options device_iterations_ in         (* 133 *)
  let training_opts := set_outputMode training_opts All in         (* 135 *)
  let training_model_ :=
    {| training_options := training_opts;
       optimizer_lr := learning_rate |} in                         (* 139-143 *)
  {| training_data := training_data_;
     test_data := test_data_;
     training_model := training_model_;
     loop_epochs := epochs_ |}.

(** *** [TrainingModelWithLoss] (lines 115-127)

    The wrapped model and [torch.nn.CrossEntropyLoss()] are PyTorch's; they
    enter as functions. *)
Section TrainingModelWithLoss.

Variables Input Output Labels Loss : Type.
Variable CrossEntropyLoss : Output -> Labels -> Loss.

Record TrainingModelWithLoss : Type := {
  model : Input -> Output;
  loss : Output -> Labels -> Loss
}.

(** [__init__] *)
Definition init (model_ : Input -> Output) : TrainingModelWithLoss :=
  {| model := model_; loss := CrossEntropyLoss |}.

(** [forward(self, args, labels=None)]: the output alone, or the tuple
    [(output, loss)]. *)
Definition forward (self : TrainingModelWithLoss) (args : Input)
  (labels : option Labels) : Output + Output * Loss :=
  let output := model self args in
  match labels with
  | None => inl output
  | Some labels_ =>
      let loss_ := loss self output labels_ in
      inr (output, loss_)
  end.

End TrainingModelWithLoss.

Arguments model {Input Output Labels Loss} _.
Arguments loss {Input Output Labels Loss} _.
Arguments init {Input Output Labels Loss} CrossEntropyLoss model_.
Arguments forward {Input Output Labels Loss} self args labels.

(** *** The test loop (lines 163-172)

    [accuracy] is imported from the sibling module [metrics] (line 145); it
    enters as a parameter, and the loop is embedded over any such function.
    The loader is the list of the batches it yields, so [len(test_data)] is
    the length of that list. *)
Section TestLoop.

Local Open Scope Q_scope.

Variables Data Labels Output : Type.
Variable inference_model : Data -> Output.
Variable accuracy : Output -> Labels -> Q.

(** Lines 166-170. *)
Definition sum_acc (test_batches : list (Data * Labels)) : Q :=
  fold_left
    (fun sum_acc_ batch =>
       let output := inference_model (fst batch) in
       sum_acc_ + accuracy output (snd batch))
    test_batches 0.

(** The number formatted on line 172; dividing a float by [0] raises. *)
Definition reported_accuracy (test_batches : list (Data * Labels)) : result Q :=
  let n := Z.of_nat (List.length test_batches) in
  if (n =? 0)%Z then Raise ZeroDivisionError
  else Ok (sum_acc test_batches / inject_Z n).

End TestLoop.

Arguments sum_acc {Data Labels Output} inference_model accuracy test_batches.
Arguments reported_accuracy {Data Labels Output} inference_model accuracy test_batches.

End PopTorchMNIST.

(** ** Dotted names

    The text before the first dot: the major component of a version string
    such as "2.4.1", and the top-level package of a module path such as
    "torch.nn". *)
Fixpoint before_dot (s : string) : string :=
  match s with
  | EmptyString => EmptyString
  | String c rest =>
      if Ascii.eqb c "."%char then EmptyString else String c (before_dot rest)
  end.

(** ** simple_applications/tensorflow2/mnist/mnist_code_only.py *)

Module TF2MNIST.

(** Lines 7-8, as a function of [tf.__version__]:
<<
if tf.__version__[0] != '2':
    raise ImportError("TensorFlow 2 is required for this example")
>>
    Indexing the empty string raises [IndexError]. *)
Definition version_check (version : string) : result unit :=
  match version with
  | EmptyString => Raise IndexError
  | String c _ =>
      if negb (Ascii.eqb c "2"%char) then Raise ImportError else Ok tt
  end.

(** The installed framework is major version 2. *)
Definition major_version_2 (version : string) : Prop :=
  before_dot version = "2"%string.

(** What the script's first lines look at in the installed TensorFlow:
    [tf.__version__], and whether the package [tensorflow.python] has the
    module [ipu], which Graphcore's port of TensorFlow adds and a stock
    TensorFlow does not have. *)
Record Installation : Type := {
  tf_version : string;
  has_ipu : bool
}.

(** Lines 2-8, the statements that run before anything is defined:
<<
import tensorflow as tf

from tensorflow import keras
from tensorflow.python import ipu

if tf.__version__[0] != '2':
    raise ImportError("TensorFlow 2 is required for this example")
>>
    [from tensorflow.python import ipu] raises [ImportError] when the
    module is not there, before the guard of lines 7-8 is reached.
    [tensorflow] and [tensorflow.keras] are there in every TensorFlow 2. *)
Definition import_ipu (tf : Installation) : result unit :=
  if has_ipu tf then Ok tt else Raise ImportError.

Definition preamble (tf : Installation) : result unit :=
  rbind (import_ipu tf) (fun _ => version_check (tf_version tf)).

End TF2MNIST.

(** ** tutorials/pytorch/tut1_basics/walkthrough_code_only.py *)

Module FashionMNIST.

Local Open Scope py_scope.

(** [sklearn.metrics.accuracy_score(y_true, y_pred)] with its defaults: the
    fraction of positions at which the two sequences agree.  Sequences of
    different lengths are refused with [ValueError]; for empty sequences
    there is no fraction to return, which is modelled as the same error. *)
Definition matches (y_true y_pred : list Z) : nat :=
  List.length (filter (fun tp => fst tp =? snd tp) (combine y_true y_pred)).

Definition accuracy_score (y_true y_pred : list Z) : result Q :=
  if negb (Nat.eqb (List.length y_true) (List.length y_pred)) then Raise ValueError
  else if Nat.eqb (List.length y_true) 0 then Raise ValueError
  else Ok (inject_Z (Z.of_nat (matches y_true y_pred))
           / inject_Z (Z.of_nat (List.length y_true)))%Q.

Section Evaluation.

Variable Data : Type.

(** [poptorch_model_inf(data).data.max(dim=1).indices]: the predicted class
    of every sample of the batch. *)
Variable predicted_classes : Data -> list Z.

(** Lines 98-101: both lists grow by one batch per iteration. *)
Definition collect (test_dataloader : list (Data * list Z)) : list Z * list Z :=
  fold_left
    (fun acc batch =>
       let predictions := fst acc in
       let labels := snd acc in
       (predictions ++ predicted_classes (fst batch), labels ++ snd batch))
    test_dataloader ([], []).

(** The number formatted on line 108. *)
Definition eval_accuracy (test_dataloader : list (Data * list Z)) : result Q :=
  let predictions := fst (collect test_dataloader) in
  let labels := snd (collect test_dataloader) in
  score <- accuracy_score labels predictions ;;
  Ok (100 * score)%Q.

End Evaluation.

Arguments collect {Data} predicted_classes test_dataloader.
Arguments eval_accuracy {Data} predicted_classes test_dataloader.

End FashionMNIST.

(** ** The import statements of the seven scripts *)

Module Repository.

Local Open Scope string_scope.

Inductive script : Type :=
| tf2_mnist_code_only           (* simple_applications/tensorflow2/mnist/mnist_code_only.py *)
| mnist_poptorch_code_only      (* simple_applications/pytorch/mnist/mnist_poptorch_code_only.py *)
| keras_demo_code_only          (* tutorials/tensorflow2/keras/demo_code_only.py *)
| tut2_walkthrough_code_only    (* tutorials/pytorch/tut2_efficient_data_loading/walkthrough_code_only.py *)
| tut1_walkthrough_code_only    (* tutorials/pytorch/tut1_basics/walkthrough_code_only.py *)
| tf1_example_1                 (* tutorials/tensorflow1/basics/tut1_porting_a_model/example_1.py *)
| tf1_example_1_gpu.            (* tutorials/tensorflow1/basics/tut1_porting_a_model/example_1_gpu.py *)

Definition all_scripts : list script :=
  [tf2_mnist_code_only; mnist_poptorch_code_only; keras_demo_code_only;
   tut2_walkthrough_code_only; tut1_walkthrough_code_only;
   tf1_example_1; tf1_example_1_gpu].

(** The module named by every [import m] and [from m import ...] of a
    script, in source order. *)
Definition imports (s : script) : list string :=
  match s with
  | tf2_mnist_code_only =>
      ["tensorflow"; "tensorflow"; "tensorflow.python"]
  | mnist_poptorch_code_only =>
      ["tqdm"; "torch"; "torch.nn"; "torchvision"; "poptorch"; "torch.optim";
       "argparse"; "metrics"]
  | keras_demo_code_only =>
      ["tensorflow.keras"; "numpy"; "tensorflow.python"]
  | tut2_walkthrough_code_only =>
      ["__main__"; "time"; "sys"; "poptorch"; "torch"; "torch.nn"]
  | tut1_walkthrough_code_only =>
      ["torch"; "poptorch"; "torchvision"; "torch.nn"; "matplotlib.pyplot";
       "tqdm"; "sklearn.metrics"]
  | tf1_example_1 =>
      ["tensorflow.compat.v1"; "tensorflow.python"; "time"]
  | tf1_example_1_gpu =>
      ["tensorflow.compat.v1"; "time"]
  end.

(** Packages that come with the interpreter. *)
Definition standard_library : list string :=
  ["argparse"; "time"; "sys"; "__main__"].

(** The external frameworks and libraries the scripts are written against. *)
Definition external_libraries : list string :=
  ["tensorflow"; "torch"; "torchvision"; "poptorch"; "tqdm"; "numpy";
   "matplotlib"; "sklearn"].

Definition mem (x : string) (l : list string) : bool :=
  existsb (String.eqb x) l.

(** A module that is there once Python and the frameworks are installed. *)
Definition provided_outside (module : string) : bool :=
  mem (before_dot module) standard_library
  || mem (before_dot module) external_libraries.

(** The imports of a script that only a file next to the script can
    satisfy ([from metrics import accuracy] is served by [metrics.py] in the
    script's own directory, which Python searches first). *)
Definition local_imports (s : script) : list string :=
  filter (fun m => negb (provided_outside m)) (imports s).

(** A script is self-contained when every module it imports is provided
    outside the repository. *)
Definition self_contained (s : script) : Prop :=
  forall m : string, In m (imports s) -> provided_outside m = true.

End Repository.

(** ** tutorials/pytorch/tut2_efficient_data_loading/walkthrough_code_only.py

    The script creates asynchronous data loaders, walks over them, times
    the walks and tears the loaders down.  It is embedded as a program over
    a world that holds what can be observed of a run: the number of
    time-consuming library operations done so far, the life-cycle events of
    the loaders, and the lines printed.  [time.time()] reads a wall clock
    that is a function of the operation count; seconds are rationals.  A
    statement either returns or raises, and keeps the world it reached. *)

Module DataLoading.

Inductive event : Type :=
| Created (id : nat)             (* poptorch.DataLoader(...) returned loader [id] *)
| IterCalled (id : nat)          (* iter(loader): by a for loop or explicitly *)
| Yielded (id : nat) (k : nat)   (* next() returned batch number [k] *)
| Exhausted (id : nat)           (* next() raised StopIteration: the for loop ends *)
| Terminated (id : nat).         (* loader.terminate() *)

Inductive line : Type :=
| Notice                                   (* the run-me-in-a-notebook message *)
| Seconds (label : string) (s : Q)
| ItemsPerSecond (label : string) (ips : Q)
| Evaluating (steps items : Z).

Record world : Type := {
  ticks : nat;
  events : list event;
  stdout : list line;
  next_loader : nat
}.

Definition initial_world : world :=
  {| ticks := 0; events := []; stdout := []; next_loader := 0 |}.

Definition M (A : Type) : Type := world -> result A * world.

Definition ret {A : Type} (a : A) : M A := fun w => (Ok a, w).

Definition raise {A : Type} (e : exn) : M A := fun w => (Raise e, w).

Definition bind {A B : Type} (c : M A) (k : A -> M B) : M B :=
  fun w =>
    match c w with
    | (Ok a, w') => k a w'
    | (Raise e, w') => (Raise e, w')
    end.

Declare Scope run_scope.
Delimit Scope run_scope with run.
Notation "x <- c ;; k" := (bind c (fun x => k))
  (at level 61, c at next level, right associativity) : run_scope.
Notation "c ;; k" := (bind c (fun _ => k))
  (at level 61, right associativity) : run_scope.

Local Open Scope run_scope.

(** One time-consuming operation passes. *)
Definition elapse : M unit :=
  fun w => (Ok tt, {| ticks := S (ticks w); events := events w;
                      stdout := stdout w; next_loader := next_loader w |}).

Definition emit (e : event) : M unit :=
  fun w => (Ok tt, {| ticks := ticks w; events := events w ++ [e];
                      stdout := stdout w; next_loader := next_loader w |}).

Definition print (l : line) : M unit :=
  fun w => (Ok tt, {| ticks := ticks w; events := events w;
                      stdout := stdout w ++ [l]; next_loader := next_loader w |}).

Definition fresh_loader_id : M nat :=
  fun w => (Ok (next_loader w),
            {| ticks := ticks w; events := events w;
               stdout := stdout w; next_loader := S (next_loader w) |}).

(** [int / float]: true division, which raises on a zero divisor. *)
Definition py_truediv (a : Z) (b : Q) : M Q :=
  if Qeq_bool b 0 then raise ZeroDivisionError else ret (inject_Z a / b)%Q.

(** *** PopTorch *)

Record Options : Type := {
  device_iterations_of : Z;
  replication_factor_of : Z;
  synthetic_data_of : bool
}.

Definition new_Options : Options :=
  {| device_iterations_of := 1; replication_factor_of := 1;
     synthetic_data_of := false |}.

Definition deviceIterations (o : Options) (n : Z) : Options :=
  {| device_iterations_of := n; replication_factor_of := replication_factor_of o;
     synthetic_data_of := synthetic_data_of o |}.

Definition replicationFactor (o : Options) (n : Z) : Options :=
  {| device_iterations_of := device_iterations_of o; replication_factor_of := n;
     synthetic_data_of := synthetic_data_of o |}.

Definition enableSyntheticData (o : Options) (b : bool) : Options :=
  {| device_iterations_of := device_iterations_of o;
     replication_factor_of := replication_factor_of o;
     synthetic_data_of := b |}.

(** A loader: its identity and [len(loader)]. *)
Record DataLoader : Type := {
  loader_id : nat;
  len : Z
}.

(** [poptorch.DataLoader(opts, dataset=..., batch_size=..., drop_last=True,
    mode=Async)].  One step of the loader carries
    [batch_size * device_iterations * replication_factor] items; with
    [drop_last] the loader has as many steps as fit in the data set; a
    combined batch size that is not positive is refused. *)
Definition new_DataLoader (opts : Options) (dataset_len batch_size : Z)
  : M DataLoader :=
  let combined_batch_size :=
    (batch_size * device_iterations_of opts * replication_factor_of opts)%Z in
  if (combined_batch_size <=? 0)%Z then raise ValueError
  else
    id <- fresh_loader_id ;;
    elapse ;;
    emit (Created id) ;;
    ret {| loader_id := id; len := (dataset_len / combined_batch_size)%Z |}.

(** Batches [k], [k+1], ..., [k+n-1] of a for loop over loader [id]; the
    body receives the batch number in place of [(data, labels)]. *)
Fixpoint for_batches (id k n : nat) (body : nat -> M unit) : M unit :=
  match n with
  | O => ret tt
  | S n' =>
      elapse ;;
      emit (Yielded id k) ;;
      body k ;;
      for_batches id (S k) n' body
  end.

(** [for data, labels in training_data: body] *)
Definition for_in (training_data : DataLoader) (body : nat -> M unit) : M unit :=
  emit (IterCalled (loader_id training_data)) ;;
  for_batches (loader_id training_data) 0 (Z.to_nat (len training_data)) body ;;
  elapse ;;
  emit (Exhausted (loader_id training_data)).


Definition terminate (training_data : DataLoader) : M unit :=
  emit (Terminated (loader_id training_data)).

(** [training_model(data, labels)] and [training_model.compile(...)]: a
    trip to the device. *)
Definition training_model : M unit := elapse.

(** [for _ in range(steps): body] *)
Fixpoint for_range (steps : nat) (body : M unit) : M unit :=
  match steps with
  | O => ret tt
  | S steps' => body ;; for_range steps' body
  end.

Section Script.

(** The reading of [time.time()] once [n] operations have passed. *)
Variable wall_clock : nat -> Q.

Definition time_time : M Q := fun w => (Ok (wall_clock (ticks w)), w).

(** Lines 85-91. *)
Record catchtime : Type := { seconds : Q }.

Definition catchtime_enter : M catchtime :=
  now <- time_time ;;
  ret {| seconds := now |}.

Definition catchtime_exit (self : catchtime) : M catchtime :=
  now <- time_time ;;
  ret {| seconds := (now - seconds self)%Q |}.

(** [with catchtime() as t: body]; the value is [t] after [__exit__]. *)
Definition with_catchtime (body : M unit) : M catchtime :=
  t <- catchtime_enter ;;
  body ;;
  catchtime_exit t.

(** Lines 26-29 and 70. *)
Definition device_iterations : Z := 50.
Definition batch_size : Z := 16.
Definition replicas : Z := 1.
Definition num_workers : Z := 4.
Definition dataset : Z := 10000.

(** Lines 56-58 and 74-103: the first loader and its throughput. *)
Definition data_loader_benchmark : M unit :=
  let opts := new_Options in
  let opts := deviceIterations opts device_iterations in
  let opts := replicationFactor opts replicas in
  training_data <- new_DataLoader opts dataset batch_size ;;
  let steps := len training_data in
  t <- with_catchtime (for_in training_data (fun _ => ret tt)) ;;
  print (Seconds "Total execution time" (seconds t)) ;;
  items_per_second <-
    py_truediv (steps * device_iterations * batch_size * replicas) (seconds t) ;;
  print (ItemsPerSecond "DataLoader throughput" items_per_second) ;;
  terminate training_data.


(** Lines 145-183. *)
Definition validate_model_performance (dataset : Z)
  (device_iterations batch_size replicas num_workers : Z)
  (synthetic_data : bool) : M unit :=
  let opts := new_Options in
  let opts := deviceIterations opts device_iterations in
  let opts := replicationFactor opts replicas in
  let opts := if synthetic_data then enableSyntheticData opts true else opts in
  training_data <- new_DataLoader opts dataset batch_size ;;
  let steps := len training_data in
  t <- with_catchtime (for_in training_data (fun _ => ret tt)) ;;
  items_per_second <-
    py_truediv (steps * device_iterations * batch_size * replicas) (seconds t) ;;
  print (ItemsPerSecond "DataLoader" items_per_second) ;;
  print (Seconds "Dataloader execution time" (seconds t)) ;;
  t <- (if synthetic_data
        then with_catchtime (for_range (Z.to_nat steps) training_model)
        else with_catchtime (for_in training_data (fun _ => training_model))) ;;
  items_per_second <-
    py_truediv (steps * device_iterations * batch_size * replicas) (seconds t) ;;
  print (ItemsPerSecond "IPU throughput" items_per_second) ;;
  print (Seconds "Dataloader with IPU training execution time" (seconds t)) ;;
  terminate training_data.


End Script.

(** *** The loaders' life cycle, as a property of the event trace *)

(** The event is a step of iterating loader [id]. *)
Definition iterates (id : nat) (e : event) : bool :=
  match e with
  | IterCalled i | Yielded i _ | Exhausted i => Nat.eqb i id
  | Created _ | Terminated _ => false
  end.

Definition is_terminate (id : nat) (e : event) : bool :=
  match e with
  | Terminated i => Nat.eqb i id
  | _ => false
  end.

(** [terminate()] is called on loader [id] exactly once, and no step of
    iterating [id] comes after that call. *)
Definition torn_down_once (trace : list event) (id : nat) : Prop :=
  exists before after : list event,
    trace = before ++ Terminated id :: after /\
    forallb (fun e => negb (is_terminate id e)) (before ++ after) = true /\
    forallb (fun e => negb (iterates id e)) after = true.

Definition loaders_torn_down (trace : list event) : Prop :=
  forall id : nat, In (Created id) trace -> torn_down_once trace id.

End DataLoading.

(** *** Vocabulary for the data-loading properties *)

Module DataLoadingTrace.

Import DataLoading.

(** The world after [n] more operations, nothing else changed. *)
Definition advance (n : nat) (w : world) : world :=
  {| ticks := n + ticks w; events := events w;
     stdout := stdout w; next_loader := next_loader w |}.

(** The events of one complete for loop of [n] batches over loader [id]. *)
Definition iteration_events (id n : nat) : list event :=
  IterCalled id :: map (Yielded id) (seq 0 n) ++ [Exhausted id].

(** The loader an event is about. *)
Definition event_id (e : event) : nat :=
  match e with
  | Created i | IterCalled i | Yielded i _ | Exhausted i | Terminated i => i
  end.

(** Every loader of the trace has an identity below [n]. *)
Definition ids_below (n : nat) (trace : list event) : Prop :=
  Forall (fun e => (event_id e < n)%nat) trace.

(** What a statement of the script keeps true of the world: every loader
    created so far is torn down, and loader identities are handed out in
    order. *)
Definition settled (w : world) : Prop :=
  loaders_torn_down (events w) /\ ids_below (next_loader w) (events w).

(** The loaders created in a trace. *)
Definition created (trace : list event) : list nat :=
  flat_map (fun e => match e with Created i => [i] | _ => [] end) trace.

(** What running one block of the script from world [w] to world [w']
    amounts to for the loaders: one more loader, and all torn down. *)
Definition block_outcome (w w' : world) : Prop :=
  settled w' /\
  next_loader w' = S (next_loader w) /\
  created (events w') = created (events w) ++ [next_loader w].

(** [loop], entered in world [w_in], returns in world [w_out], and the
    timer around it measures [s] seconds. *)
Definition timed (wall_clock : nat -> Q) (loop : M unit)
  (w_in w_out : world) (s : Q) : Prop :=
  loop w_in = (Ok tt, w_out) /\
  s = (wall_clock (ticks w_out) - wall_clock (ticks w_in))%Q.





End DataLoadingTrace.

(** ** Keras demo: cutting the arrays to the adjusted length *)

Module KerasData.

Local Open Scope py_scope.

(** [xs[:n]] along the first axis: the first [n] rows, and for a negative
    [n] all but the last [-n] rows. *)
Definition slice_to {A : Type} (xs : list A) (n : Z) : list A :=
  if n <? 0 then firstn (Z.to_nat (Z.of_nat (List.length xs) + n)) xs
  else firstn (Z.to_nat n) xs.

(** [x.shape[0]] *)
Definition shape0 {A : Type} (xs : list A) : Z := Z.of_nat (List.length xs).

(** Lines 93-95 (and 97-99):
<<
train_data_len = x_train.shape[0]
train_data_len = make_divisible(train_data_len, batch_size)
x_train, y_train = x_train[:train_data_len], y_train[:train_data_len]
>> *)
Definition truncate_ipu {A B : Type} (x_train : list A) (y_train : list B)
  : result (list A * list B) :=
  let train_data_len := shape0 x_train in
  train_data_len <- KerasDemo.make_divisible train_data_len KerasDemo.batch_size ;;
  Ok (slice_to x_train train_data_len, slice_to y_train train_data_len).

(** Lines 125-128 (and 130-133). *)
Definition truncate_steps_per_execution {A B : Type}
  (x_train : list A) (y_train : list B) : result (Z * (list A * list B)) :=
  let train_data_len := shape0 x_train in
  adjusted <- KerasDemo.adjust_steps_per_execution train_data_len ;;
  Ok (fst adjusted,
      (slice_to x_train (snd adjusted), slice_to y_train (snd adjusted))).

(** Lines 159-164 (and 166-171). *)
Definition truncate_replication {A B : Type}
  (x_train : list A) (y_train : list B) : result (Z * (list A * list B)) :=
  let train_data_len := shape0 x_train in
  adjusted <- KerasDemo.Replication.adjust train_data_len ;;
  Ok (fst adjusted,
      (slice_to x_train (snd adjusted), slice_to y_train (snd adjusted))).

(** Lines 205-210 (and 212-217). *)
Definition truncate_pipelining {A B : Type}
  (x_train : list A) (y_train : list B) : result (Z * (list A * list B)) :=
  let train_data_len := shape0 x_train in
  adjusted <- KerasDemo.Pipelining.adjust train_data_len ;;
  Ok (fst adjusted,
      (slice_to x_train (snd adjusted), slice_to y_train (snd adjusted))).

End KerasData.

(** ** The shapes that flow through the PyTorch models

    A layer is followed through its effect on the shape of its input, by
    PyTorch's rules for the layers the scripts instantiate; [None] stands
    for the exception PyTorch raises on a shape it cannot take. *)

Module TorchShapes.

(** (batch, channels, height, width) *)
Definition shape4 : Type := (Z * Z * Z * Z)%type.
(** (rows, features) *)
Definition shape2 : Type := (Z * Z)%type.

Definition obind {A B : Type} (c : option A) (k : A -> option B) : option B :=
  match c with
  | Some a => k a
  | None => None
  end.

Declare Scope shape_scope.
Delimit Scope shape_scope with shape.
Notation "x <- c ;; k" := (obind c (fun x => k))
  (at level 61, c at next level, right associativity) : shape_scope.

Local Open Scope shape_scope.

(** [nn.Conv2d(in_channels, out_channels, kernel_size)]: stride 1 and no
    padding. *)
Definition Conv2d (in_channels out_channels kernel_size : Z) (x : shape4)
  : option shape4 :=
  let '(n, c, h, w) := x in
  if negb (c =? in_channels) then None
  else if (h <? kernel_size) || (w <? kernel_size) then None
  else Some (n, out_channels, h - kernel_size + 1, w - kernel_size + 1).

(** [nn.MaxPool2d(kernel_size)] and [nn.MaxPool2d(kernel_size, stride)]
    with the stride equal to the kernel size, as the scripts have it. *)
Definition MaxPool2d (kernel_size : Z) (x : shape4) : option shape4 :=
  let '(n, c, h, w) := x in
  if (h <? kernel_size) || (w <? kernel_size) then None
  else Some (n, c, (h - kernel_size) / kernel_size + 1,
                   (w - kernel_size) / kernel_size + 1).

(** [nn.GroupNorm(num_groups, num_channels)] *)
Definition GroupNorm (num_groups num_channels : Z) (x : shape4) : option shape4 :=
  let '(n, c, h, w) := x in
  if negb (c =? num_channels) then None else Some x.

(** [nn.Linear(in_features, out_features)] on a matrix. *)
Definition Linear (in_features out_features : Z) (x : shape2) : option shape2 :=
  let '(rows, features) := x in
  if negb (features =? in_features) then None else Some (rows, out_features).

(** [x.view(-1, features)]: the row count is inferred from the number of
    elements. *)
Definition view_rows (features : Z) (x : shape4) : option shape2 :=
  let '(n, c, h, w) := x in
  let elements := n * c * h * w in
  if elements mod features =? 0 then Some (elements / features, features)
  else None.

(** [torch.flatten(x, start_dim=1)] *)
Definition flatten1 (x : shape4) : shape2 :=
  let '(n, c, h, w) := x in (n, c * h * w).

(** *** mnist_poptorch_code_only.py, lines 77-112 *)

(** [Block(in_channels, num_filters, kernel_size, pool_size).forward];
    ReLU keeps the shape. *)
Definition Block_forward (in_channels num_filters kernel_size pool_size : Z)
  (x : shape4) : option shape4 :=
  x <- Conv2d in_channels num_filters kernel_size x ;;
  x <- MaxPool2d pool_size x ;;
  Some x.

(** [Network.forward]; ReLU, Dropout and Softmax keep the shape. *)
Definition Network_forward (x : shape4) : option shape2 :=
  x <- Block_forward 1 32 3 2 x ;;
  x <- Block_forward 32 64 3 2 x ;;
  x <- view_rows 1600 x ;;
  x <- Linear 1600 128 x ;;
  x <- Linear 128 10 x ;;
  Some x.

(** [nn.NLLLoss()(x, labels)] with the default mean reduction: [x] holds
    one row of class scores per sample and [labels], given by its length,
    one class per row; the loss is a scalar.  The call raises without
    labels ([labels=None]) and when the number of labels is not the number
    of rows. *)
Definition NLLLoss (x : shape2) (labels : option Z) : option unit :=
  let '(rows, classes) := x in
  match labels with
  | None => None
  | Some count => if count =? rows then Some tt else None
  end.

(** What [forward] returns: the scores, or the pair of the scores and the
    scalar loss. *)
Inductive forward_result : Type :=
| Scores (x : shape2)
| ScoresAndLoss (x : shape2).

(** *** [ClassificationModel.forward] of the two walkthroughs

    tut1_basics, lines 35-58, has [fc1 = nn.Linear(972, 100)];
    tut2_efficient_data_loading, lines 32-53, has
    [fc1 = nn.Linear(41772, 100)]; the rest is the same.  ReLU and
    LogSoftmax keep the shape.  [training] is [self.training], which
    [model.train()] sets and [model.eval()] clears:
<<
if self.training:
    return x, self.loss(x, labels)
return x
>> *)
Definition ClassificationModel_forward (fc1_in_features : Z) (training : bool)
  (x : shape4) (labels : option Z) : option forward_result :=
  x <- Conv2d 1 5 3 x ;;
  x <- MaxPool2d 2 x ;;
  x <- Conv2d 5 12 5 x ;;
  x <- GroupNorm 3 12 x ;;
  let x := flatten1 x in
  x <- Linear fc1_in_features 100 x ;;
  x <- Linear 100 10 x ;;
  if training then
    loss <- NLLLoss x labels ;;
    Some (ScoresAndLoss x)
  else Some (Scores x).

Definition tut1_forward : bool -> shape4 -> option Z -> option forward_result :=
  ClassificationModel_forward 972.

Definition tut2_forward : bool -> shape4 -> option Z -> option forward_result :=
  ClassificationModel_forward 41772.

End TorchShapes.

(** ** tut1_basics: the sample-image figure (lines 20-32) *)

Module FashionMNISTPlot.

Local Open Scope py_scope.

(** Lines 20-21. *)
Definition classes : list string :=
  ["T-shirt"; "Trouser"; "Pullover"; "Dress"; "Coat"; "Sandal";
   "Shirt"; "Sneaker"; "Bag"; "Ankle boot"]%string.

(** [classes[label]] on a tuple: a negative index counts from the end, an
    index outside the tuple raises [IndexError]. *)
Definition classes_item (label : Z) : result string :=
  let n := Z.of_nat (List.length classes) in
  let index := if label <? 0 then label + n else label in
  if (index <? 0) || (n <=? index) then Raise IndexError
  else match nth_error classes (Z.to_nat index) with
       | Some name => Ok name
       | None => Raise IndexError
       end.

(** [plt.subplot(5, 5, k)]: the position has to be on the grid. *)
Definition subplot (nrows ncols k : Z) : result Z :=
  if (k <? 1) || (nrows * ncols <? k) then Raise ValueError else Ok k.

(** The loop of lines 24-30 from iteration [i] on, over the labels of the
    samples still to come; the value is the list of the titled subplots. *)
Fixpoint plot_from (i : Z) (labels : list Z) : result (list (Z * string)) :=
  match labels with
  | [] => Ok []
  | label :: rest =>
      if i =? 15 then Ok []
      else
        ax <- subplot 5 5 (i + 1) ;;
        title <- classes_item label ;;
        later <- plot_from (i + 1) rest ;;
        Ok ((ax, title) :: later)
  end.

Definition plot_samples (labels : list Z) : result (list (Z * string)) :=
  plot_from 0 labels.

End FashionMNISTPlot.

(** ** PopTorch MNIST: from the loaders to the training loop (lines 58-152) *)

Module PopTorchMNISTLoops.

Local Open Scope py_scope.

(** [range(start, stop)] *)
Definition py_range (start stop : Z) : list Z :=
  map (fun k => start + Z.of_nat k) (seq 0 (Z.to_nat (stop - start))).

(** The samples of one step of a [poptorch.DataLoader]: batch size times
    device iterations. *)
Definition combined_batch_size (loader : PopTorchMNIST.DataLoader) : Z :=
  PopTorchMNIST.loader_batch_size loader
  * PopTorchMNIST.deviceIterations (PopTorchMNIST.options loader).

(** [poptorch.DataLoader(options=..., dataset=..., batch_size=...,
    shuffle=True, drop_last=True)], lines 60-66 and 68-74: the batch
    sampler refuses a batch size that is not positive with [ValueError]. *)
Definition new_DataLoader (loader : PopTorchMNIST.DataLoader) : result unit :=
  if combined_batch_size loader <=? 0 then Raise ValueError else Ok tt.

(** [optim.SGD(model.parameters(), lr=learning_rate)], line 142: a negative
    learning rate is refused with [ValueError]. *)
Definition new_SGD (lr : Q) : result unit :=
  if Qle_bool 0 lr then Ok tt else Raise ValueError.

(** [len(loader)] over a data set of [dataset_len] samples: with
    [drop_last] only whole steps count, otherwise a last partial step
    counts too. *)
Definition loader_len (loader : PopTorchMNIST.DataLoader) (dataset_len : Z) : Z :=
  if PopTorchMNIST.drop_last loader
  then dataset_len / combined_batch_size loader
  else (dataset_len + combined_batch_size loader - 1) / combined_batch_size loader.

(** Lines 58-152, given that the import of line 145 succeeds: the two
    loaders and the optimizer are constructed in this order, then the loop
    of lines 149-152 runs; the value is the list of the calls of
    [training_model], each with its epoch and the number of its step
    within the epoch. *)
Definition training_loop (setup : PopTorchMNIST.Setup) (training_dataset_len : Z)
  : result (list (Z * Z)) :=
  training_data <- new_DataLoader (PopTorchMNIST.training_data setup) ;;
  test_data <- new_DataLoader (PopTorchMNIST.test_data setup) ;;
  optimizer <- new_SGD (PopTorchMNIST.optimizer_lr
                          (PopTorchMNIST.training_model setup)) ;;
  let nr_steps :=
    loader_len (PopTorchMNIST.training_data setup) training_dataset_len in
  Ok (flat_map
        (fun epoch => map (fun step => (epoch, step)) (py_range 0 nr_steps))
        (py_range 1 (PopTorchMNIST.loop_epochs setup + 1))).

End PopTorchMNISTLoops.

(** * Properties *)

(** ** Keras demo: divisibility arithmetic *)

Section KerasDemoFacts.

Import KerasDemo.

Lemma py_mod_ok (a b : Z) : b <> 0 -> py_mod a b = Ok (a mod b).
Proof.
  intros Hb. unfold py_mod.
  destruct (Z.eqb_spec b 0); [contradiction | reflexivity].
Qed.

Lemma py_floordiv_ok (a b : Z) : b <> 0 -> py_floordiv a b = Ok (a / b).
Proof.
  intros Hb. unfold py_floordiv.
  destruct (Z.eqb_spec b 0); [contradiction | reflexivity].
Qed.

Lemma make_divisible_ok (n d : Z) :
  d <> 0 -> make_divisible n d = Ok (n - n mod d).
Proof.
  intros Hd. unfold make_divisible. rewrite py_mod_ok by assumption.
  reflexivity.
Qed.

Lemma make_divisible_zero (n : Z) : make_divisible n 0 = Raise ZeroDivisionError.
Proof. reflexivity. Qed.

Lemma make_divisible_divides (n d : Z) : d <> 0 -> (d | n - n mod d).
Proof.
  intros Hd. exists (n / d).
  pose proof (Z.div_mod n d Hd). lia.
Qed.

(** A remainder that is already below the divisor is left alone. *)
Lemma mod_after_multiple (k d r : Z) :
  0 <= r < d -> (k * d + r) mod d = r.
Proof.
  intros Hr. symmetry. apply (Z.mod_unique_pos _ _ k); [assumption | ring].
Qed.

End KerasDemoFacts.

Example make_divisible_60000_64 : KerasDemo.make_divisible 60000 64 = Ok 59968.
Proof. reflexivity. Qed.

Example replication_adjust_60000 : KerasDemo.Replication.adjust 60000 = Ok (468, 59904).
Proof. reflexivity. Qed.

Example pipelining_adjust_10000 : KerasDemo.Pipelining.adjust 10000 = Ok (152, 9728).
Proof. reflexivity. Qed.

(** C3. For a non-negative [number] and a positive [divisor],
    [make_divisible number divisor] returns [number - number % divisor],
    which is a multiple of [divisor], is at most [number], and is the
    largest such multiple: the length is rounded down to a multiple of the
    divisor. *)
Theorem make_divisible_rounds_down (number divisor : Z) :
  0 <= number -> 0 < divisor ->
  KerasDemo.make_divisible number divisor = Ok (number - number mod divisor) /\
  (divisor | number - number mod divisor) /\
  0 <= number - number mod divisor <= number /\
  (forall m : Z, (divisor | m) -> m <= number ->
                 m <= number - number mod divisor).
Proof.
  intros Hn Hd.
  assert (Hd0 : divisor <> 0) by lia.
  pose proof (Z.mod_pos_bound number divisor Hd) as Hr.
  pose proof (Z.div_mod number divisor Hd0) as Hdm.
  pose proof (Z.div_pos number divisor Hn Hd) as Hq.
  repeat split.
  - apply make_divisible_ok; assumption.
  - apply make_divisible_divides; assumption.
  - nia.
  - lia.
  - intros m [k Hk] Hm. subst m.
    assert (Hk' : k <= number / divisor).
    { apply Z.div_le_lower_bound; lia. }
    nia.
Qed.

Lemma make_divisible_rounds_down_witness :
  KerasDemo.make_divisible 60000 64 = Ok 59968 /\
  (64 | 59968) /\ 0 <= 59968 <= 60000 /\
  (forall m : Z, (64 | m) -> m <= 60000 -> m <= 59968).
Proof.
  exact (make_divisible_rounds_down 60000 64 ltac:(lia) ltac:(lia)).
Defined.

Section KerasAdjustFacts.

Import KerasDemo.

(** The replication section's steps-per-execution value never fails: its
    two divisors are the constants 128 and 2. *)
Lemma replication_steps_eq (data_len : Z) :
  Replication.steps_per_execution data_len =
  Ok (data_len / 128 - (data_len / 128) mod 2).
Proof. reflexivity. Qed.

Lemma pipelining_steps_eq (data_len : Z) :
  Pipelining.steps_per_execution data_len =
  Ok (data_len / 64 - (data_len / 64) mod 8).
Proof. reflexivity. Qed.

Lemma replication_adjust_eq (data_len : Z) :
  Replication.adjust data_len =
  let steps := data_len / 128 - (data_len / 128) mod 2 in
  if steps * 64 =? 0 then Raise ZeroDivisionError
  else Ok (steps, data_len - data_len mod (steps * 64)).
Proof.
  unfold Replication.adjust. rewrite replication_steps_eq. cbn zeta.
  unfold rbind, Replication.divisor, make_divisible, py_mod, batch_size.
  destruct (_ =? 0); reflexivity.
Qed.

Lemma pipelining_adjust_eq (data_len : Z) :
  Pipelining.adjust data_len =
  let steps := data_len / 64 - (data_len / 64) mod 8 in
  if steps * 64 =? 0 then Raise ZeroDivisionError
  else Ok (steps, data_len - data_len mod (steps * 64)).
Proof.
  unfold Pipelining.adjust. rewrite pipelining_steps_eq. cbn zeta.
  unfold rbind, Pipelining.divisor, make_divisible, py_mod, batch_size.
  destruct (_ =? 0); reflexivity.
Qed.

(** From eight batches on, the replication section keeps exactly two
    executions' worth of samples. *)
Lemma replication_adjust_large (data_len : Z) :
  512 <= data_len ->
  let steps := data_len / 128 - (data_len / 128) mod 2 in
  4 <= steps /\ Replication.adjust data_len = Ok (steps, 2 * (steps * 64)).
Proof.
  intros Hlen steps.
  assert (Hs : 4 <= steps) by (subst steps; Z.div_mod_to_equations; lia).
  split; [exact Hs |].
  rewrite replication_adjust_eq. fold steps. cbn zeta.
  destruct (Z.eqb_spec (steps * 64) 0) as [E | _]; [lia |].
  set (rest := data_len - 2 * (steps * 64)).
  assert (Hrest : 0 <= rest < steps * 64).
  { subst rest steps. Z.div_mod_to_equations. lia. }
  replace data_len with (2 * (steps * 64) + rest) at 1 2 by (subst rest; ring).
  rewrite mod_after_multiple by exact Hrest.
  f_equal. f_equal. ring.
Qed.

End KerasAdjustFacts.

(** C2, as stated, fails in the replication section: a data set of 384
    samples gets 2 steps per execution and keeps its 384 samples, which is
    not a multiple of 64 * 2 * 2 = 256. *)
Lemma replication_adjust_384_not_multiple :
  KerasDemo.Replication.adjust 384 = Ok (2, 384) /\
  ~ (KerasDemo.batch_size * 2 * KerasDemo.Replication.num_replicas | 384) /\
  ~ adjusted_to_multiple KerasDemo.Replication.adjust
      KerasDemo.Replication.num_replicas 384.
Proof.
  split; [reflexivity |].
  assert (H : ~ (KerasDemo.batch_size * 2 * KerasDemo.Replication.num_replicas | 384)).
  { intros [k Hk]. unfold KerasDemo.batch_size, KerasDemo.Replication.num_replicas in Hk.
    lia. }
  split; [exact H |].
  intros (steps & len' & Heq & Hdiv).
  change (KerasDemo.Replication.adjust 384) with (@Ok (Z * Z) (2, 384)) in Heq.
  injection Heq as <- <-. exact (H Hdiv).
Qed.

(** C2 (amended). For a data set of [data_len >= 0] samples, the
    replication section's adjusted length is a multiple of batch size times
    steps per execution times replica count exactly when
    [256 <= data_len < 384] or [512 <= data_len], and the pipelining
    section's exactly when [512 <= data_len]; in particular both hold from
    512 samples on.  Below those bounds the adjustment divides by zero, and
    for 384..511 samples the replication section keeps 384 samples with 2
    steps per execution. *)
Theorem adjusted_length_multiple (data_len : Z) :
  0 <= data_len ->
  (adjusted_to_multiple KerasDemo.Replication.adjust
     KerasDemo.Replication.num_replicas data_len
   <-> (256 <= data_len < 384 \/ 512 <= data_len)) /\
  (adjusted_to_multiple KerasDemo.Pipelining.adjust
     KerasDemo.Pipelining.num_replicas data_len
   <-> 512 <= data_len).
Proof.
  intros Hlen. unfold adjusted_to_multiple. split; split.
  - (* replication, only if *)
    intros (steps & len' & Heq & Hdiv).
    destruct (Z_lt_le_dec data_len 512) as [Hlt | Hge]; [| now right].
    left. rewrite replication_adjust_eq in Heq. cbn zeta in Heq.
    assert (Hq : data_len / 128 = 0 \/ data_len / 128 = 1 \/
                 data_len / 128 = 2 \/ data_len / 128 = 3)
      by (Z.div_mod_to_equations; lia).
    destruct Hq as [Hq | [Hq | [Hq | Hq]]]; rewrite Hq in Heq;
      cbn in Heq; try discriminate.
    + Z.div_mod_to_equations; lia.
    + exfalso. injection Heq as <- <-.
      destruct Hdiv as [k Hk].
      unfold KerasDemo.batch_size, KerasDemo.Replication.num_replicas in Hk.
      Z.div_mod_to_equations. lia.
  - (* replication, if *)
    intros [Hmid | Hbig].
    + exists 2, 256. split.
      * rewrite replication_adjust_eq. cbn zeta.
        assert (Hq : data_len / 128 = 2) by (Z.div_mod_to_equations; lia).
        rewrite Hq. cbn. f_equal. f_equal. Z.div_mod_to_equations. lia.
      * exists 1. reflexivity.
    + destruct (replication_adjust_large data_len Hbig) as [_ Heq].
      cbn zeta in Heq. eexists _, _. split; [exact Heq |].
      exists 1. unfold KerasDemo.batch_size, KerasDemo.Replication.num_replicas. ring.
  - (* pipelining, only if *)
    intros (steps & len' & Heq & _).
    rewrite pipelining_adjust_eq in Heq. cbn zeta in Heq.
    destruct (Z.eqb_spec ((data_len / 64 - (data_len / 64) mod 8) * 64) 0)
      as [E | NE]; [discriminate |].
    Z.div_mod_to_equations. lia.
  - (* pipelining, if *)
    intros Hbig. rewrite pipelining_adjust_eq. cbn zeta.
    set (steps := data_len / 64 - (data_len / 64) mod 8).
    assert (Hs : 8 <= steps) by (subst steps; Z.div_mod_to_equations; lia).
    destruct (Z.eqb_spec (steps * 64) 0) as [E | NE]; [lia |].
    eexists _, _. split; [reflexivity |].
    replace (KerasDemo.batch_size * steps * KerasDemo.Pipelining.num_replicas)
      with (steps * 64)
      by (unfold KerasDemo.batch_size; change KerasDemo.Pipelining.num_replicas with 1; ring).
    apply make_divisible_divides. exact NE.
Qed.

Lemma adjusted_length_multiple_witness :
  0 <= 60000 /\
  adjusted_to_multiple KerasDemo.Replication.adjust
    KerasDemo.Replication.num_replicas 60000 /\
  adjusted_to_multiple KerasDemo.Pipelining.adjust
    KerasDemo.Pipelining.num_replicas 60000.
Proof.
  assert (H0 : 0 <= 60000) by lia.
  destruct (adjusted_length_multiple 60000 H0) as [[_ Hr] [_ Hp]].
  split; [exact H0 |].
  split; [apply Hr; right; lia | apply Hp; lia].
Defined.

(** C10. [make_divisible] raises [ZeroDivisionError] exactly when its
    divisor is zero.  In the replication and pipelining sections the
    divisor passed for the length is the steps-per-execution value times the
    batch size; computing that value never fails; it is zero, and the
    adjustment raises, for every data set of fewer than
    [batch_size * num_replicas] samples; and whenever the value is positive
    the adjustment returns without dividing by zero. *)
Theorem make_divisible_zero_division (data_len : Z) :
  0 <= data_len ->
  (forall number divisor : Z,
     KerasDemo.make_divisible number divisor = Raise ZeroDivisionError
     <-> divisor = 0) /\
  (exists steps : Z,
     KerasDemo.Replication.steps_per_execution data_len = Ok steps /\
     (data_len < KerasDemo.batch_size * KerasDemo.Replication.num_replicas ->
      KerasDemo.Replication.divisor steps = 0 /\
      KerasDemo.Replication.adjust data_len = Raise ZeroDivisionError) /\
     (0 < steps ->
      KerasDemo.Replication.divisor steps <> 0 /\
      exists data_len' : Z,
        KerasDemo.Replication.adjust data_len = Ok (steps, data_len'))) /\
  (exists steps : Z,
     KerasDemo.Pipelining.steps_per_execution data_len = Ok steps /\
     (data_len < KerasDemo.batch_size * KerasDemo.Pipelining.num_replicas ->
      KerasDemo.Pipelining.divisor steps = 0 /\
      KerasDemo.Pipelining.adjust data_len = Raise ZeroDivisionError) /\
     (0 < steps ->
      KerasDemo.Pipelining.divisor steps <> 0 /\
      exists data_len' : Z,
        KerasDemo.Pipelining.adjust data_len = Ok (steps, data_len'))).
Proof.
  intros Hlen. split; [| split].
  - intros number divisor. split.
    + intros H. destruct (Z.eq_dec divisor 0) as [E | NE]; [exact E |].
      rewrite make_divisible_ok in H by exact NE. discriminate.
    + intros ->. apply make_divisible_zero.
  - eexists. split; [apply replication_steps_eq |].
    set (steps := data_len / 128 - (data_len / 128) mod 2).
    split.
    + unfold KerasDemo.batch_size, KerasDemo.Replication.num_replicas.
      intros Hsmall.
      assert (Hs : steps = 0) by (subst steps; Z.div_mod_to_equations; lia).
      rewrite replication_adjust_eq. fold steps. cbn zeta.
      rewrite Hs. split; reflexivity.
    + intros Hpos. unfold KerasDemo.Replication.divisor, KerasDemo.batch_size.
      split; [lia |].
      rewrite replication_adjust_eq. fold steps. cbn zeta.
      destruct (Z.eqb_spec (steps * 64) 0) as [E | NE]; [lia |].
      eexists. reflexivity.
  - eexists. split; [apply pipelining_steps_eq |].
    set (steps := data_len / 64 - (data_len / 64) mod 8).
    split.
    + unfold KerasDemo.batch_size. change KerasDemo.Pipelining.num_replicas with 1.
      intros Hsmall.
      assert (Hs : steps = 0) by (subst steps; Z.div_mod_to_equations; lia).
      rewrite pipelining_adjust_eq. fold steps. cbn zeta.
      rewrite Hs. split; reflexivity.
    + intros Hpos. unfold KerasDemo.Pipelining.divisor, KerasDemo.batch_size.
      split; [lia |].
      rewrite pipelining_adjust_eq. fold steps. cbn zeta.
      destruct (Z.eqb_spec (steps * 64) 0) as [E | NE]; [lia |].
      eexists. reflexivity.
Qed.

Lemma make_divisible_zero_division_witness :
  (0 <= 10 /\ 10 < KerasDemo.batch_size * KerasDemo.Replication.num_replicas /\
   KerasDemo.Replication.adjust 10 = Raise ZeroDivisionError /\
   KerasDemo.Pipelining.adjust 10 = Raise ZeroDivisionError) /\
  (0 <= 60000 /\
   KerasDemo.Replication.steps_per_execution 60000 = Ok 468 /\ 0 < 468 /\
   (exists data_len' : Z, KerasDemo.Replication.adjust 60000 = Ok (468, data_len')) /\
   KerasDemo.Pipelining.steps_per_execution 60000 = Ok 936 /\ 0 < 936 /\
   (exists data_len' : Z, KerasDemo.Pipelining.adjust 60000 = Ok (936, data_len'))).
Proof.
  assert (Ha : 0 <= 10) by lia.
  assert (Hb : 0 <= 60000) by lia.
  destruct (make_divisible_zero_division 10 Ha)
    as (_ & (s1 & _ & Hr0 & _) & (s2 & _ & Hp0 & _)).
  destruct (make_divisible_zero_division 60000 Hb)
    as (_ & (s3 & Hs3 & _ & Hr1) & (s4 & Hs4 & _ & Hp1)).
  split.
  - split; [exact Ha |]. split; [reflexivity |].
    split; [apply Hr0; reflexivity | apply Hp0; reflexivity].
  - change (KerasDemo.Replication.steps_per_execution 60000)
      with (@Ok Z 468) in Hs3.
    change (KerasDemo.Pipelining.steps_per_execution 60000)
      with (@Ok Z 936) in Hs4.
    injection Hs3 as <-. injection Hs4 as <-.
    split; [exact Hb |]. split; [reflexivity |]. split; [reflexivity |].
    split; [apply Hr1; reflexivity |].
    split; [reflexivity |]. split; [reflexivity |].
    apply Hp1; reflexivity.
Defined.

(** The two earlier sections of the demo, for completeness: rounding to the
    batch size never fails, and the steps_per_execution section keeps whole
    batches from one batch on and divides by zero below that. *)
Lemma adjust_ipu_ok (data_len : Z) :
  KerasDemo.adjust_ipu data_len = Ok (data_len - data_len mod 64).
Proof. reflexivity. Qed.

Lemma adjust_steps_per_execution_ok (data_len : Z) :
  64 <= data_len ->
  KerasDemo.adjust_steps_per_execution data_len
  = Ok (data_len / 64, data_len / 64 * 64).
Proof.
  intros Hlen. unfold KerasDemo.adjust_steps_per_execution.
  rewrite py_floordiv_ok by discriminate. cbn [rbind].
  change KerasDemo.batch_size with 64.
  assert (Hq : 1 <= data_len / 64) by (Z.div_mod_to_equations; lia).
  rewrite make_divisible_ok by lia. cbn [rbind].
  set (q := data_len / 64) in *.
  assert (Hr : 0 <= data_len - q * 64 < q * 64)
    by (subst q; Z.div_mod_to_equations; lia).
  replace data_len with (1 * (q * 64) + (data_len - q * 64)) at 1 2 by ring.
  rewrite mod_after_multiple by exact Hr.
  do 2 f_equal. ring.
Qed.

Lemma adjust_steps_per_execution_small (data_len : Z) :
  0 <= data_len < 64 ->
  KerasDemo.adjust_steps_per_execution data_len = Raise ZeroDivisionError.
Proof.
  intros Hlen. unfold KerasDemo.adjust_steps_per_execution.
  rewrite py_floordiv_ok by discriminate. cbn [rbind].
  change KerasDemo.batch_size with 64.
  rewrite Z.div_small by exact Hlen. reflexivity.
Qed.

(** ** PopTorch MNIST: command line, wrapped model, test accuracy *)

Section CommandLineFacts.

Import PopTorchMNIST.

(** Parsing leaves in every attribute the last value given on its flag,
    or the value it started from. *)
Lemma fold_store_batch_size (argv : list cli_arg) (ns : Namespace) :
  batch_size (fold_left store argv ns) =
  match given pick_batch_size argv with Some v => v | None => batch_size ns end.
Proof.
  revert ns. induction argv as [| a rest IH]; intros ns; [reflexivity |].
  cbn [fold_left given]. rewrite IH.
  destruct (given pick_batch_size rest); [reflexivity |].
  destruct a; reflexivity.
Qed.

Lemma fold_store_device_iterations (argv : list cli_arg) (ns : Namespace) :
  device_iterations (fold_left store argv ns) =
  match given pick_device_iterations argv with
  | Some v => v
  | None => device_iterations ns
  end.
Proof.
  revert ns. induction argv as [| a rest IH]; intros ns; [reflexivity |].
  cbn [fold_left given]. rewrite IH.
  destruct (given pick_device_iterations rest); [reflexivity |].
  destruct a; reflexivity.
Qed.

Lemma fold_store_test_batch_size (argv : list cli_arg) (ns : Namespace) :
  test_batch_size (fold_left store argv ns) =
  match given pick_test_batch_size argv with
  | Some v => v
  | None => test_batch_size ns
  end.
Proof.
  revert ns. induction argv as [| a rest IH]; intros ns; [reflexivity |].
  cbn [fold_left given]. rewrite IH.
  destruct (given pick_test_batch_size rest); [reflexivity |].
  destruct a; reflexivity.
Qed.

Lemma fold_store_epochs (argv : list cli_arg) (ns : Namespace) :
  epochs (fold_left store argv ns) =
  match given pick_epochs argv with Some v => v | None => epochs ns end.
Proof.
  revert ns. induction argv as [| a rest IH]; intros ns; [reflexivity |].
  cbn [fold_left given]. rewrite IH.
  destruct (given pick_epochs rest); [reflexivity |].
  destruct a; reflexivity.
Qed.

Lemma fold_store_lr (argv : list cli_arg) (ns : Namespace) :
  lr (fold_left store argv ns) =
  match given pick_lr argv with Some v => v | None => lr ns end.
Proof.
  revert ns. induction argv as [| a rest IH]; intros ns; [reflexivity |].
  cbn [fold_left given]. rewrite IH.
  destruct (given pick_lr rest); [reflexivity |].
  destruct a; reflexivity.
Qed.

(** The four flags whose value does reach the training configuration. *)
Lemma script_honours_batch_size (argv : list cli_arg) (v : Z) :
  given pick_batch_size argv = Some v ->
  loader_batch_size (training_data (script argv)) = v.
Proof.
  intros H. cbn. unfold parse_args. rewrite fold_store_batch_size, H. reflexivity.
Qed.

Lemma script_honours_test_batch_size (argv : list cli_arg) (v : Z) :
  given pick_test_batch_size argv = Some v ->
  loader_batch_size (test_data (script argv)) = v.
Proof.
  intros H. cbn. unfold parse_args. rewrite fold_store_test_batch_size, H.
  reflexivity.
Qed.

Lemma script_honours_epochs (argv : list cli_arg) (v : Z) :
  given pick_epochs argv = Some v -> loop_epochs (script argv) = v.
Proof.
  intros H. cbn. unfold parse_args. rewrite fold_store_epochs, H. reflexivity.
Qed.

Lemma script_honours_lr (argv : list cli_arg) (v : Q) :
  given pick_lr argv = Some v -> optimizer_lr (training_model (script argv)) = v.
Proof.
  intros H. cbn. unfold parse_args. rewrite fold_store_lr, H. reflexivity.
Qed.

(** The parser does store the value of [--device-iterations] ... *)
Lemma parse_args_device_iterations (argv : list cli_arg) (v : Z) :
  given pick_device_iterations argv = Some v ->
  device_iterations (parse_args argv) = v.
Proof.
  intros H. unfold parse_args. rewrite fold_store_device_iterations, H.
  reflexivity.
Qed.

(** ... but whatever the command line, line 32 leaves 50 in the variable
    that configures the training options and the training loader. *)
Lemma script_device_iterations_constant (argv : list cli_arg) :
  deviceIterations (training_options (training_model (script argv))) = 50 /\
  deviceIterations (options (training_data (script argv))) = 50.
Proof. split; reflexivity. Qed.

End CommandLineFacts.

(** C1. The five flags exist with defaults and the parser stores what is
    given on each, but the value of [--device-iterations] does not reach
    training: with [--device-iterations 7] the parsed namespace holds 7
    while the training options and the training data loader are configured
    with 50 device iterations. *)
Theorem device_iterations_flag_overwritten :
  let argv := [PopTorchMNIST.DeviceIterations 7] in
  PopTorchMNIST.given PopTorchMNIST.pick_device_iterations argv = Some 7 /\
  PopTorchMNIST.device_iterations (PopTorchMNIST.parse_args argv) = 7 /\
  PopTorchMNIST.deviceIterations
    (PopTorchMNIST.training_options
       (PopTorchMNIST.training_model (PopTorchMNIST.script argv))) = 50 /\
  PopTorchMNIST.deviceIterations
    (PopTorchMNIST.options
       (PopTorchMNIST.training_data (PopTorchMNIST.script argv))) = 50.
Proof. cbv zeta. repeat split. Qed.

(** C9. [TrainingModelWithLoss(m).forward(x, None)] is [m]'s output on [x]
    alone, and [forward(x, l)] is the pair of that output and the
    cross-entropy loss of the output against [l]. *)
Theorem forward_output_and_loss
  (Input Output Labels Loss : Type)
  (CrossEntropyLoss : Output -> Labels -> Loss)
  (m : Input -> Output) (x : Input) (l : Labels) :
  PopTorchMNIST.forward (PopTorchMNIST.init CrossEntropyLoss m) x None
  = inl (m x) /\
  PopTorchMNIST.forward (PopTorchMNIST.init CrossEntropyLoss m) x (Some l)
  = inr (m x, CrossEntropyLoss (m x) l).
Proof. split; reflexivity. Qed.

(** ** Reported accuracies *)

Section AccuracyFacts.

Local Open Scope Q_scope.

Lemma inject_nat_succ (n : nat) :
  inject_Z (Z.of_nat (S n)) == inject_Z (Z.of_nat n) + 1.
Proof. rewrite Nat2Z.inj_succ. unfold Z.succ. rewrite inject_Z_plus. reflexivity. Qed.

Lemma inject_nat_nonneg (n : nat) : 0 <= inject_Z (Z.of_nat n).
Proof.
  change 0 with (inject_Z 0). rewrite <- Zle_Qle. apply Nat2Z.is_nonneg.
Qed.

Lemma inject_nat_pos (n : nat) : n <> O -> 0 < inject_Z (Z.of_nat n).
Proof.
  intros Hn. change 0 with (inject_Z 0). rewrite <- Zlt_Qlt. lia.
Qed.

(** A quotient of a value between 0 and [100 * n] by [n > 0]. *)
Lemma percent_of_total (total n : Q) :
  0 < n -> 0 <= total <= 100 * n -> 0 <= total / n <= 100.
Proof.
  intros Hn [Hlo Hhi]. split.
  - apply Qle_shift_div_l; [exact Hn |]. lra.
  - apply Qle_shift_div_r; [exact Hn |]. exact Hhi.
Qed.

Variables Data Labels Output : Type.
Variable inference_model : Data -> Output.
Variable accuracy : Output -> Labels -> Q.

(** The loop adds to [sum_acc] one value between 0 and 100 per batch. *)
Lemma sum_acc_bounds (test_batches : list (Data * Labels)) (start : Q) :
  (forall batch, In batch test_batches ->
     0 <= accuracy (inference_model (fst batch)) (snd batch) <= 100) ->
  let total :=
    fold_left
      (fun sum_acc_ batch =>
         sum_acc_ + accuracy (inference_model (fst batch)) (snd batch))
      test_batches start in
  start <= total <= start + 100 * inject_Z (Z.of_nat (List.length test_batches)).
Proof.
  revert start. induction test_batches as [| batch rest IH]; intros start Hall.
  - cbn zeta. cbn [fold_left List.length Z.of_nat].
    change (inject_Z 0) with 0. lra.
  - cbn zeta. cbn [fold_left List.length].
    assert (Hb := Hall batch (or_introl eq_refl)).
    assert (Hrest : forall b, In b rest ->
              0 <= accuracy (inference_model (fst b)) (snd b) <= 100)
      by (intros b Hin; apply Hall; right; exact Hin).
    specialize (IH (start + accuracy (inference_model (fst batch)) (snd batch)) Hrest).
    cbn zeta in IH. rewrite inject_nat_succ.
    pose proof (inject_nat_nonneg (List.length rest)).
    lra.
Qed.

End AccuracyFacts.

Section AccuracyScoreFacts.

Import FashionMNIST.

Lemma matches_le_length (y_true y_pred : list Z) :
  (matches y_true y_pred <= List.length y_true)%nat.
Proof.
  unfold matches.
  etransitivity; [apply filter_length_le |].
  rewrite length_combine. apply Nat.le_min_l.
Qed.

(** Both lists collected by the evaluation loop grow in step when every
    batch gets one prediction per label. *)
Lemma collect_lengths (Data : Type) (predicted_classes : Data -> list Z)
  (loader : list (Data * list Z)) (acc : list Z * list Z) :
  (forall batch, In batch loader ->
     List.length (predicted_classes (fst batch)) = List.length (snd batch)) ->
  List.length (fst acc) = List.length (snd acc) ->
  let out :=
    fold_left
      (fun acc batch =>
         (fst acc ++ predicted_classes (fst batch), snd acc ++ snd batch))
      loader acc in
  List.length (fst out) = List.length (snd out) /\
  (List.length (snd acc) <= List.length (snd out))%nat /\
  (forall batch, In batch loader ->
     (List.length (snd batch) <= List.length (snd out))%nat).
Proof.
  revert acc. induction loader as [| batch rest IH]; intros acc Hall Hacc.
  - cbn. repeat split; [exact Hacc | lia | intros b []].
  - cbn zeta. cbn [fold_left].
    assert (Hb := Hall batch (or_introl eq_refl)).
    specialize (IH (fst acc ++ predicted_classes (fst batch), snd acc ++ snd batch)).
    cbn zeta in IH. cbn [fst snd] in IH.
    destruct IH as (Heq & Hle & Hin).
    + intros b Hb'. apply Hall. right. exact Hb'.
    + rewrite !length_app. lia.
    + rewrite length_app in Hle.
      repeat split; [exact Heq | lia |].
      intros b [<- | Hb']; [lia | apply Hin; exact Hb'].
Qed.

End AccuracyScoreFacts.

(** C6. In the PopTorch MNIST script, for a test loader that yields at
    least one batch and per-batch accuracies between 0 and 100, the printed
    [sum_acc / len(test_data)] is a number between 0 and 100.  In the
    FashionMNIST tutorial, with one predicted class per label and at least
    one sample, the printed [100 * accuracy_score(labels, predictions)] is a
    number between 0 and 100. *)
Theorem reported_accuracy_in_range
  (Data Labels Output : Type)
  (inference_model : Data -> Output) (accuracy : Output -> Labels -> Q)
  (test_batches : list (Data * Labels))
  (predicted_classes : Data -> list Z)
  (test_dataloader : list (Data * list Z)) :
  test_batches <> [] ->
  (forall batch, In batch test_batches ->
     0 <= accuracy (inference_model (fst batch)) (snd batch) <= 100)%Q ->
  (forall batch, In batch test_dataloader ->
     List.length (predicted_classes (fst batch)) = List.length (snd batch)) ->
  (exists batch, In batch test_dataloader /\ snd batch <> []) ->
  (exists a : Q,
     PopTorchMNIST.reported_accuracy inference_model accuracy test_batches = Ok a /\
     (0 <= a <= 100)%Q) /\
  (exists a : Q,
     FashionMNIST.eval_accuracy predicted_classes test_dataloader = Ok a /\
     (0 <= a <= 100)%Q).
Proof.
  intros Hne Hacc Hlen [sample [Hin Hsample]]. split.
  - unfold PopTorchMNIST.reported_accuracy. cbn zeta.
    destruct (Z.eqb_spec (Z.of_nat (List.length test_batches)) 0) as [E | NE].
    + destruct test_batches; [contradiction | discriminate].
    + eexists. split; [reflexivity |].
      apply percent_of_total.
      * apply inject_nat_pos. lia.
      * pose proof (sum_acc_bounds _ _ _ inference_model accuracy test_batches 0 Hacc) as H.
        cbn zeta in H. unfold PopTorchMNIST.sum_acc. lra.
  - unfold FashionMNIST.eval_accuracy, FashionMNIST.collect. cbn zeta.
    pose proof (collect_lengths _ predicted_classes test_dataloader ([], [])
                  Hlen eq_refl) as H.
    cbn zeta in H. destruct H as (Heq & _ & Hall).
    set (out := fold_left _ test_dataloader ([], [])) in *.
    assert (Hpos : List.length (snd out) <> O).
    { specialize (Hall sample Hin). destruct (snd sample); [contradiction |].
      cbn in Hall. lia. }
    unfold FashionMNIST.accuracy_score.
    rewrite Heq, Nat.eqb_refl. cbn [negb].
    destruct (Nat.eqb_spec (List.length (snd out)) 0) as [E | _]; [contradiction |].
    cbn [rbind]. eexists. split; [reflexivity |].
    pose proof (matches_le_length (snd out) (fst out)) as Hm.
    pose proof (inject_nat_pos _ Hpos) as Hn.
    pose proof (inject_nat_nonneg (FashionMNIST.matches (snd out) (fst out))) as Hm0.
    assert (Hm1 : (inject_Z (Z.of_nat (FashionMNIST.matches (snd out) (fst out)))
                   <= inject_Z (Z.of_nat (List.length (snd out))))%Q).
    { rewrite <- Zle_Qle. lia. }
    set (mq := inject_Z (Z.of_nat (FashionMNIST.matches (snd out) (fst out)))) in *.
    set (nq := inject_Z (Z.of_nat (List.length (snd out)))) in *.
    assert (Hfrac : (0 <= mq / nq <= 1)%Q).
    { split.
      - apply Qle_shift_div_l; [exact Hn | lra].
      - apply Qle_shift_div_r; [exact Hn | lra]. }
    lra.
Qed.

Lemma reported_accuracy_in_range_witness :
  let test_batches := [(tt, 87.5%Q); (tt, 100%Q)] in
  let test_dataloader := [(tt, [3; 1; 4]%Z); (tt, [3; 5; 9]%Z)] in
  test_batches <> [] /\
  (exists a : Q,
     PopTorchMNIST.reported_accuracy (fun _ : unit => tt) (fun _ acc => acc)
       test_batches = Ok a /\ (0 <= a <= 100)%Q) /\
  (exists a : Q,
     FashionMNIST.eval_accuracy (fun _ : unit => [3; 1; 5]%Z) test_dataloader
     = Ok a /\ (0 <= a <= 100)%Q).
Proof.
  cbv zeta.
  split; [discriminate |].
  apply (reported_accuracy_in_range unit Q unit (fun _ => tt) (fun _ acc => acc)
           [(tt, 87.5%Q); (tt, 100%Q)] (fun _ => [3; 1; 5]%Z)
           [(tt, [3; 1; 4]%Z); (tt, [3; 5; 9]%Z)]).
  - discriminate.
  - intros batch [<- | [<- | []]]; cbn; lra.
  - intros batch [<- | [<- | []]]; reflexivity.
  - exists (tt, [3; 1; 4]%Z). split; [left; reflexivity | discriminate].
Defined.

(** ** TensorFlow 2 MNIST: the version guard *)

(** Every major version 2 passes the guard of lines 7-8. *)
Lemma version_check_major_2 (version : string) :
  TF2MNIST.major_version_2 version -> TF2MNIST.version_check version = Ok tt.
Proof.
  unfold TF2MNIST.major_version_2. destruct version as [| c rest]; cbn.
  - discriminate.
  - destruct (Ascii.eqb_spec c "."%char) as [-> | _]; [discriminate |].
    intros H. injection H as -> _. reflexivity.
Qed.

(** The guard raises [ImportError] when the major component of the version
    starts with a character other than 2. *)
Lemma version_check_other_major (version : string) (c : ascii) (m : string) :
  before_dot version = String c m -> c <> "2"%char ->
  TF2MNIST.version_check version = Raise ImportError.
Proof.
  destruct version as [| c' rest]; cbn; [discriminate |].
  destruct (Ascii.eqb_spec c' "."%char) as [-> | _]; [discriminate |].
  intros H NE. injection H as -> _.
  destruct (Ascii.eqb_spec c "2"%char) as [-> | _]; [contradiction | reflexivity].
Qed.

(** C4, as stated, fails: on a stock TensorFlow 2.4.1, which is major
    version 2 and has no [tensorflow.python.ipu], the script raises
    [ImportError] at line 5.  So [ImportError] is not raised only when the
    major version is wrong. *)
Lemma stock_tensorflow_2_raises :
  TF2MNIST.major_version_2 "2.4.1" /\
  TF2MNIST.preamble {| TF2MNIST.tf_version := "2.4.1"; TF2MNIST.has_ipu := false |}
  = Raise ImportError /\
  ~ (forall tf : TF2MNIST.Installation,
       TF2MNIST.preamble tf = Raise ImportError
       <-> ~ TF2MNIST.major_version_2 (TF2MNIST.tf_version tf)).
Proof.
  split; [reflexivity |]. split; [reflexivity |].
  intros H.
  destruct (H {| TF2MNIST.tf_version := "2.4.1"; TF2MNIST.has_ipu := false |})
    as [Hraise _].
  apply Hraise; reflexivity.
Qed.

(** C4 (amended). With an installed TensorFlow of major version 2 the
    version check passes: the script then raises [ImportError] exactly when
    [tensorflow.python] has no module [ipu], and otherwise execution
    proceeds.  With an installed TensorFlow whose major version number
    starts with a digit other than 2 (0.x, 1.x, 3.x and so on) the script
    raises [ImportError]. *)
Theorem preamble_import_error (tf : TF2MNIST.Installation) :
  (TF2MNIST.major_version_2 (TF2MNIST.tf_version tf) ->
   TF2MNIST.version_check (TF2MNIST.tf_version tf) = Ok tt /\
   TF2MNIST.preamble tf
   = if TF2MNIST.has_ipu tf then Ok tt else Raise ImportError) /\
  (forall (c : ascii) (m : string),
     before_dot (TF2MNIST.tf_version tf) = String c m -> c <> "2"%char ->
     TF2MNIST.preamble tf = Raise ImportError).
Proof.
  unfold TF2MNIST.preamble, TF2MNIST.import_ipu. split.
  - intros Hm. pose proof (version_check_major_2 _ Hm) as Hcheck.
    split; [exact Hcheck |].
    destruct (TF2MNIST.has_ipu tf); cbn [rbind]; [exact Hcheck | reflexivity].
  - intros c m Hmajor NE.
    destruct (TF2MNIST.has_ipu tf); cbn [rbind]; [| reflexivity].
    exact (version_check_other_major _ c m Hmajor NE).
Qed.

Lemma preamble_import_error_witness :
  (TF2MNIST.major_version_2 "2.4.1" /\
   TF2MNIST.preamble {| TF2MNIST.tf_version := "2.4.1"; TF2MNIST.has_ipu := true |}
   = Ok tt) /\
  (before_dot "1.15.0" = "1"%string /\
   TF2MNIST.preamble {| TF2MNIST.tf_version := "1.15.0"; TF2MNIST.has_ipu := true |}
   = Raise ImportError).
Proof.
  split.
  - split; [reflexivity |].
    exact (proj2 (proj1 (preamble_import_error
                           {| TF2MNIST.tf_version := "2.4.1";
                              TF2MNIST.has_ipu := true |}) eq_refl)).
  - split; [reflexivity |].
    apply (proj2 (preamble_import_error
                    {| TF2MNIST.tf_version := "1.15.0";
                       TF2MNIST.has_ipu := true |}) "1"%char ""%string).
    + reflexivity.
    + discriminate.
Defined.

(** ** The scripts' imports *)

(** C5, as stated, fails: the PopTorch MNIST script imports [accuracy]
    from the module [metrics], which neither Python nor any of the
    frameworks provides. *)
Lemma mnist_poptorch_imports_metrics :
  In "metrics"%string (Repository.imports Repository.mnist_poptorch_code_only) /\
  Repository.provided_outside "metrics" = false /\
  ~ Repository.self_contained Repository.mnist_poptorch_code_only.
Proof.
  assert (Hin : In "metrics"%string
                  (Repository.imports Repository.mnist_poptorch_code_only)).
  { cbn. repeat (try (left; reflexivity); right). }
  split; [exact Hin |]. split; [reflexivity |].
  intros H. specialize (H _ Hin). discriminate.
Qed.

(** C5 (amended). Every script other than the PopTorch MNIST script
    imports only modules of the Python standard library and of the external
    frameworks; the PopTorch MNIST script imports, besides such modules,
    exactly the module [metrics]. *)
Theorem scripts_self_contained_but_one (s : Repository.script) :
  (s <> Repository.mnist_poptorch_code_only -> Repository.self_contained s) /\
  Repository.local_imports s =
    match s with
    | Repository.mnist_poptorch_code_only => ["metrics"%string]
    | _ => []
    end.
Proof.
  split.
  - intros Hs m Hin.
    destruct s; try contradiction; cbn in Hin;
      repeat (destruct Hin as [<- | Hin]; [reflexivity |]); destruct Hin.
  - destruct s; reflexivity.
Qed.

Lemma scripts_self_contained_but_one_witness :
  Repository.tut2_walkthrough_code_only <> Repository.mnist_poptorch_code_only /\
  Repository.self_contained Repository.tut2_walkthrough_code_only.
Proof.
  assert (H : Repository.tut2_walkthrough_code_only
              <> Repository.mnist_poptorch_code_only) by discriminate.
  split; [exact H |].
  exact (proj1 (scripts_self_contained_but_one
                  Repository.tut2_walkthrough_code_only) H).
Defined.

(** ** Efficient data loading: throughput and loader life cycle *)

Section RunFacts.

Import DataLoading DataLoadingTrace.

Local Open Scope run_scope.

Lemma bind_ok {A B : Type} (c : M A) (k : A -> M B) (w w' : world) (a : A) :
  c w = (Ok a, w') -> bind c k w = k a w'.
Proof. intros H. unfold bind. rewrite H. reflexivity. Qed.

Lemma bind_raise {A B : Type} (c : M A) (k : A -> M B) (w w' : world) (e : exn) :
  c w = (Raise e, w') -> bind c k w = (Raise e, w').
Proof. intros H. unfold bind. rewrite H. reflexivity. Qed.

Lemma world_eta (w : world) :
  {| ticks := ticks w; events := events w;
     stdout := stdout w; next_loader := next_loader w |} = w.
Proof. destruct w; reflexivity. Qed.

Lemma for_batches_run (body : nat -> M unit) (c : nat) :
  (forall k w, body k w = (Ok tt, advance c w)) ->
  forall (n id k : nat) (w : world),
    for_batches id k n body w =
    (Ok tt, {| ticks := n * S c + ticks w;
               events := events w ++ map (Yielded id) (seq k n);
               stdout := stdout w;
               next_loader := next_loader w |}).
Proof.
  intros Hbody. induction n as [| n IH]; intros id k w.
  - cbn. rewrite app_nil_r, world_eta. reflexivity.
  - cbn [for_batches]. unfold bind at 1 2 3. cbn [elapse emit].
    rewrite Hbody, IH. unfold advance. cbn [ticks events stdout next_loader].
    rewrite <- app_assoc. cbn [seq map app].
    do 2 f_equal. lia.
Qed.

Lemma for_in_run (body : nat -> M unit) (c : nat) :
  (forall k w, body k w = (Ok tt, advance c w)) ->
  forall (training_data : DataLoader) (w : world),
    let id := loader_id training_data in
    let n := Z.to_nat (len training_data) in
    for_in training_data body w =
    (Ok tt, {| ticks := S (n * S c + ticks w);
               events := events w ++ iteration_events id n;
               stdout := stdout w;
               next_loader := next_loader w |}).
Proof.
  intros Hbody training_data w id n. unfold for_in.
  unfold bind at 1 2 3. cbn [emit].
  rewrite (for_batches_run body c Hbody). cbn [elapse emit].
  cbn [ticks events stdout next_loader]. unfold iteration_events.
  fold id n. unfold emit. cbn [ticks events stdout next_loader].
  rewrite <- !app_assoc. reflexivity.
Qed.

Lemma for_range_run (n : nat) (w : world) :
  for_range n training_model w = (Ok tt, advance n w).
Proof.
  revert w. induction n as [| n IH]; intros w.
  - unfold advance. cbn. rewrite world_eta. reflexivity.
  - cbn [for_range]. unfold bind, training_model at 1, elapse.
    rewrite IH. unfold advance. cbn [ticks events stdout next_loader].
    do 2 f_equal. lia.
Qed.

Lemma pass_body (k : nat) (w : world) :
  (fun _ : nat => @ret unit tt) k w = (Ok tt, advance 0 w).
Proof. unfold advance, ret. cbn. rewrite world_eta. reflexivity. Qed.

Lemma training_body (k : nat) (w : world) :
  (fun _ : nat => training_model) k w = (Ok tt, advance 1 w).
Proof. reflexivity. Qed.

Lemma py_truediv_run (a : Z) (b : Q) (w : world) :
  ~ b == 0 -> py_truediv a b w = (Ok (inject_Z a / b)%Q, w).
Proof.
  intros Hb. unfold py_truediv.
  destruct (Qeq_bool b 0) eqn:E; [| reflexivity].
  apply Qeq_bool_eq in E. contradiction.
Qed.

Lemma py_truediv_zero (a : Z) (b : Q) (w : world) :
  b == 0 -> py_truediv a b w = (Raise ZeroDivisionError, w).
Proof.
  intros Hb. unfold py_truediv.
  rewrite (proj2 (Qeq_bool_iff b 0) Hb). reflexivity.
Qed.

Lemma new_DataLoader_run (opts : Options) (dataset_len batch_size : Z) (w : world) :
  (0 < batch_size * device_iterations_of opts * replication_factor_of opts)%Z ->
  new_DataLoader opts dataset_len batch_size w =
  (Ok {| loader_id := next_loader w;
         len := (dataset_len /
                 (batch_size * device_iterations_of opts * replication_factor_of opts))%Z |},
   {| ticks := S (ticks w);
      events := events w ++ [Created (next_loader w)];
      stdout := stdout w;
      next_loader := S (next_loader w) |}).
Proof.
  intros Hpos. unfold new_DataLoader.
  destruct (Z.leb_spec
              (batch_size * device_iterations_of opts * replication_factor_of opts) 0)
    as [Hle | _]; [lia |].
  reflexivity.
Qed.

Variable wall_clock : nat -> Q.

Lemma with_catchtime_run (body : M unit) (w w' : world) :
  body w = (Ok tt, w') ->
  with_catchtime wall_clock body w =
  (Ok {| seconds := (wall_clock (ticks w') - wall_clock (ticks w))%Q |}, w').
Proof.
  intros Hbody. unfold with_catchtime, catchtime_enter, catchtime_exit, time_time.
  unfold bind at 1 2 3. cbn. rewrite Hbody. reflexivity.
Qed.

End RunFacts.

Section BlockFacts.

Import DataLoading DataLoadingTrace.

Local Open Scope run_scope.

Variable wall_clock : nat -> Q.

(** [validate_model_performance], run to its end: the loader it creates,
    the two timed loops and what is printed. *)
Lemma validate_model_performance_run
  (dataset_len di bs rep nw : Z) (synthetic : bool) (w : world) :
  let steps := (dataset_len / (bs * di * rep))%Z in
  let n := Z.to_nat steps in
  let id := next_loader w in
  let t0 := S (ticks w) in
  let t1 := S (n * 1 + t0) in
  let t2 := if synthetic then (n + t1)%nat else S (n * 2 + t1) in
  let s1 := (wall_clock t1 - wall_clock t0)%Q in
  let s2 := (wall_clock t2 - wall_clock t1)%Q in
  let items := (steps * di * bs * rep)%Z in
  (0 < bs * di * rep)%Z -> ~ s1 == 0 -> ~ s2 == 0 ->
  validate_model_performance wall_clock dataset_len di bs rep nw synthetic w =
  (Ok tt,
   {| ticks := t2;
      events := events w ++ Created id :: iteration_events id n
                ++ (if synthetic then [] else iteration_events id n)
                ++ [Terminated id];
      stdout := stdout w ++
                [ItemsPerSecond "DataLoader" (inject_Z items / s1)%Q;
                 Seconds "Dataloader execution time" s1;
                 ItemsPerSecond "IPU throughput" (inject_Z items / s2)%Q;
                 Seconds "Dataloader with IPU training execution time" s2];
      next_loader := S id |}).
Proof.
  intros steps n id t0 t1 t2 s1 s2 items Hpos Hs1 Hs2.
  unfold validate_model_performance.
  erewrite bind_ok;
    [| apply new_DataLoader_run; destruct synthetic; exact Hpos].
  cbv beta.
  replace (device_iterations_of _) with di by (destruct synthetic; reflexivity).
  replace (replication_factor_of _) with rep by (destruct synthetic; reflexivity).
  cbn [len]. fold steps n id.
  erewrite bind_ok;
    [| apply with_catchtime_run; apply (for_in_run _ 0 pass_body)].
  cbn [seconds ticks loader_id len]. fold n t0 t1 s1 items.
  erewrite bind_ok; [| apply py_truediv_run; exact Hs1].
  cbv beta. cbn [ticks events stdout next_loader].
  do 2 (erewrite bind_ok; [| reflexivity]; cbv beta).
  cbn [ticks events stdout next_loader].
  destruct synthetic.
  - erewrite bind_ok; [| apply with_catchtime_run; apply for_range_run].
    cbv beta. unfold advance. cbn [seconds ticks events stdout next_loader].
    fold t2 s2.
    erewrite bind_ok; [| apply py_truediv_run; exact Hs2].
    cbv beta.
    do 2 (erewrite bind_ok; [| reflexivity]; cbv beta).
    unfold terminate, emit. cbn [ticks events stdout next_loader loader_id].
    rewrite <- !app_assoc. reflexivity.
  - erewrite bind_ok;
      [| apply with_catchtime_run; apply (for_in_run _ 1 training_body)].
    cbv beta. cbn [seconds ticks events stdout next_loader loader_id len].
    fold n t2 s2.
    erewrite bind_ok; [| apply py_truediv_run; exact Hs2].
    cbv beta.
    do 2 (erewrite bind_ok; [| reflexivity]; cbv beta).
    unfold terminate, emit. cbn [ticks events stdout next_loader loader_id].
    rewrite <- !app_assoc. reflexivity.
Qed.

(** The first loader (lines 74-103), run to its end. *)
Lemma data_loader_benchmark_run (w : world) :
  let steps := (dataset / (batch_size * device_iterations * replicas))%Z in
  let n := Z.to_nat steps in
  let id := next_loader w in
  let t0 := S (ticks w) in
  let t1 := S (n * 1 + t0) in
  let s := (wall_clock t1 - wall_clock t0)%Q in
  let items := (steps * device_iterations * batch_size * replicas)%Z in
  ~ s == 0 ->
  data_loader_benchmark wall_clock w =
  (Ok tt,
   {| ticks := t1;
      events := events w ++ Created id :: iteration_events id n ++ [Terminated id];
      stdout := stdout w ++
                [Seconds "Total execution time" s;
                 ItemsPerSecond "DataLoader throughput" (inject_Z items / s)%Q];
      next_loader := S id |}).
Proof.
  intros steps n id t0 t1 s items Hs.
  unfold data_loader_benchmark.
  erewrite bind_ok; [| apply new_DataLoader_run; reflexivity].
  cbv beta.
  cbn [device_iterations_of replication_factor_of deviceIterations
       replicationFactor new_Options len].
  fold steps n id.
  erewrite bind_ok;
    [| apply with_catchtime_run; apply (for_in_run _ 0 pass_body)].
  cbv beta. cbn [seconds ticks events stdout next_loader loader_id len].
  fold n t0 t1 s items.
  erewrite bind_ok; [| reflexivity]. cbv beta.
  erewrite bind_ok; [| apply py_truediv_run; exact Hs]. cbv beta.
  erewrite bind_ok; [| reflexivity]. cbv beta.
  unfold terminate, emit. cbn [ticks events stdout next_loader loader_id].
  rewrite <- !app_assoc. reflexivity.
Qed.


End BlockFacts.

Section TraceFacts.

Import DataLoading DataLoadingTrace.

Lemma iteration_events_iterate (id n : nat) :
  forallb (iterates id) (iteration_events id n) = true.
Proof.
  unfold iteration_events. cbn [forallb iterates]. rewrite Nat.eqb_refl.
  rewrite forallb_app. cbn [forallb iterates andb]. rewrite Nat.eqb_refl.
  rewrite Bool.andb_true_r. apply forallb_forall.
  intros e He. apply in_map_iff in He. destruct He as (k & <- & _).
  cbn. apply Nat.eqb_refl.
Qed.

(** An event about another loader is neither an iteration step nor the
    teardown of loader [id]. *)
Lemma other_loader_event (id : nat) (e : event) :
  event_id e <> id ->
  negb (is_terminate id e) = true /\ negb (iterates id e) = true.
Proof.
  intros Hne. destruct e; cbn in *;
    try (rewrite (proj2 (Nat.eqb_neq _ _) Hne)); split; reflexivity.
Qed.

Lemma iteration_step_facts (id : nat) (e : event) :
  iterates id e = true ->
  event_id e = id /\ (forall j, is_terminate j e = false) /\
  (forall j, e <> Created j).
Proof.
  destruct e; cbn; intros H; try discriminate;
    apply Nat.eqb_eq in H; subst; repeat split; intros; discriminate.
Qed.

(** Appending the whole life of a new loader, from its creation through
    its iteration steps to its teardown, keeps every loader torn down. *)
Lemma torn_down_block (trace body : list event) (id : nat) :
  loaders_torn_down trace ->
  ids_below id trace ->
  forallb (iterates id) body = true ->
  loaders_torn_down (trace ++ Created id :: body ++ [Terminated id]) /\
  ids_below (S id) (trace ++ Created id :: body ++ [Terminated id]).
Proof.
  intros Hdown Hbelow Hbody.
  assert (Hbody' : forall e, In e body -> iterates id e = true)
    by (apply forallb_forall; exact Hbody).
  split.
  - intros j Hj. apply in_app_or in Hj. destruct Hj as [Hj | Hj].
    + (* an earlier loader: its teardown is where it was *)
      assert (Hlt : (j < id)%nat).
      { unfold ids_below in Hbelow. rewrite Forall_forall in Hbelow.
        exact (Hbelow _ Hj). }
      destruct (Hdown j Hj) as (before & after & -> & Hterm & Hiter).
      exists before, (after ++ Created id :: body ++ [Terminated id]).
      split; [rewrite <- app_assoc; reflexivity |].
      assert (Hnew : forall e, In e (Created id :: body ++ [Terminated id]) ->
                negb (is_terminate j e) = true /\ negb (iterates j e) = true).
      { intros e He. apply other_loader_event.
        destruct He as [<- | He]; [cbn; lia |].
        apply in_app_or in He. destruct He as [He | [<- | []]]; [| cbn; lia].
        destruct (iteration_step_facts id e (Hbody' e He)) as (-> & _). lia. }
      split.
      * rewrite app_assoc, forallb_app, Hterm. cbn [andb].
        apply forallb_forall. intros e He. exact (proj1 (Hnew e He)).
      * rewrite forallb_app, Hiter. cbn [andb].
        apply forallb_forall. intros e He. exact (proj2 (Hnew e He)).
    + (* the new loader *)
      assert (Hjid : j = id).
      { destruct Hj as [Hj | Hj]; [injection Hj as ->; reflexivity |].
        apply in_app_or in Hj. destruct Hj as [Hj | [Hj | []]]; [| discriminate].
        destruct (iteration_step_facts id _ (Hbody' _ Hj)) as (_ & _ & Hc).
        exfalso. exact (Hc j eq_refl). }
      subst j. exists (trace ++ Created id :: body), [].
      split; [rewrite <- app_assoc; reflexivity |].
      split; [| reflexivity].
      rewrite app_nil_r, forallb_app. apply andb_true_intro. split.
      * apply forallb_forall. intros e He. apply other_loader_event.
        unfold ids_below in Hbelow. rewrite Forall_forall in Hbelow.
        specialize (Hbelow e He). lia.
      * cbn [forallb is_terminate negb andb]. apply forallb_forall.
        intros e He.
        destruct (iteration_step_facts id e (Hbody' e He)) as (_ & Ht & _).
        rewrite Ht. reflexivity.
  - unfold ids_below in *. rewrite Forall_forall in *.
    intros e He. apply in_app_or in He. destruct He as [He | [<- | He]].
    + specialize (Hbelow e He). lia.
    + cbn. lia.
    + apply in_app_or in He. destruct He as [He | [<- | []]]; [| cbn; lia].
      destruct (iteration_step_facts id e (Hbody' e He)) as (-> & _). lia.
Qed.

Lemma created_app (t1 t2 : list event) :
  created (t1 ++ t2) = created t1 ++ created t2.
Proof. unfold created. apply flat_map_app. Qed.

Lemma created_iteration_steps (id : nat) (body : list event) :
  forallb (iterates id) body = true -> created body = [].
Proof.
  induction body as [| e rest IH]; [reflexivity |].
  cbn [forallb]. intros H. apply andb_prop in H. destruct H as [He Hrest].
  destruct e; cbn in He; try discriminate; cbn; apply IH; exact Hrest.
Qed.

End TraceFacts.

Section LifeCycleFacts.

Import DataLoading DataLoadingTrace.

Local Open Scope run_scope.

Variable wall_clock : nat -> Q.

(** Time passes: a later reading of the clock is larger. *)
Hypothesis clock_increasing :
  forall m n : nat, (m < n)%nat -> (wall_clock m < wall_clock n)%Q.

Lemma clock_gap (m n : nat) :
  (m < n)%nat -> ~ (wall_clock n - wall_clock m == 0)%Q.
Proof.
  intros Hmn Hz. pose proof (clock_increasing m n Hmn). lra.
Qed.

Lemma block_outcome_intro (w : world) (body : list event)
  (t : nat) (out : list line) :
  settled w ->
  forallb (iterates (next_loader w)) body = true ->
  block_outcome w
    {| ticks := t;
       events := events w ++ Created (next_loader w) :: body
                 ++ [Terminated (next_loader w)];
       stdout := out;
       next_loader := S (next_loader w) |}.
Proof.
  intros [Hdown Hbelow] Hbody. unfold block_outcome, settled.
  cbn [events next_loader].
  destruct (torn_down_block _ body _ Hdown Hbelow Hbody) as [Hd Hb].
  repeat split; [exact Hd | exact Hb |].
  rewrite created_app. cbn [created flat_map].
  change (flat_map _ (body ++ [Terminated (next_loader w)]))
    with (created (body ++ [Terminated (next_loader w)])).
  rewrite created_app, (created_iteration_steps _ _ Hbody). reflexivity.
Qed.



(** [validate_model_performance] tears down the loader it creates, for
    every choice of its arguments with a positive combined batch size (and,
    with synthetic data, at least one step to time). *)
Lemma validate_model_performance_settles
  (dataset_len di bs rep nw : Z) (synthetic : bool) (w : world) :
  (0 < bs * di * rep)%Z ->
  (synthetic = true -> (bs * di * rep <= dataset_len)%Z) ->
  settled w ->
  exists w' : world,
    validate_model_performance wall_clock dataset_len di bs rep nw synthetic w
    = (Ok tt, w') /\
    block_outcome w w'.
Proof.
  intros Hpos Hsyn Hw. eexists. split.
  - apply validate_model_performance_run; [exact Hpos | |]; apply clock_gap.
    + lia.
    + destruct synthetic; [| lia].
      assert (0 < dataset_len / (bs * di * rep))%Z
        by (apply Z.div_str_pos; split; [exact Hpos | apply Hsyn; reflexivity]).
      lia.
  - rewrite app_assoc.
    apply (block_outcome_intro w
             (iteration_events (next_loader w) _ ++
              (if synthetic then [] else iteration_events (next_loader w) _)));
      [exact Hw |].
    rewrite forallb_app, iteration_events_iterate.
    destruct synthetic; [reflexivity | apply iteration_events_iterate].
Qed.

End LifeCycleFacts.

Section ReturnFacts.

Import DataLoading DataLoadingTrace.

Local Open Scope run_scope.

Variable wall_clock : nat -> Q.










End ReturnFacts.

Lemma initial_world_settled : DataLoadingTrace.settled DataLoading.initial_world.
Proof.
  split; [intros id [] | constructor].
Qed.







(** C7. The throughput the data-loading tutorial reports is
    [len(training_data)] times device iterations times batch size times
    replication factor, divided by the seconds the timer measured around
    the loop: the clock reading when the loop returns minus the reading when
    it is entered.  This holds for the first loader of the script (lines
    94-101) and for both figures of [validate_model_performance], whatever
    its arguments; a timer that measured zero seconds makes the division
    raise instead. *)
Theorem throughput_is_items_over_seconds
  (wall_clock : nat -> Q) (w : DataLoading.world)
  (dataset_len di bs rep nw : Z) (synthetic : bool) :
  (0 < bs * di * rep)%Z ->
  (exists (training_data : DataLoading.DataLoader)
          (w0 w1 : DataLoading.world) (s : Q),
     DataLoading.new_DataLoader
       (DataLoading.replicationFactor
          (DataLoading.deviceIterations DataLoading.new_Options
             DataLoading.device_iterations)
          DataLoading.replicas)
       DataLoading.dataset DataLoading.batch_size w
     = (Ok training_data, w0) /\
     DataLoadingTrace.timed wall_clock
       (DataLoading.for_in training_data (fun _ => DataLoading.ret tt)) w0 w1 s /\
     (~ (s == 0)%Q ->
      exists w' : DataLoading.world,
        DataLoading.data_loader_benchmark wall_clock w = (Ok tt, w') /\
        DataLoading.stdout w' =
        DataLoading.stdout w ++
        [DataLoading.Seconds "Total execution time" s;
         DataLoading.ItemsPerSecond "DataLoader throughput"
           (inject_Z (DataLoading.len training_data
                      * DataLoading.device_iterations
                      * DataLoading.batch_size * DataLoading.replicas) / s)%Q]) /\
     (s == 0 ->
      exists w' : DataLoading.world,
        DataLoading.data_loader_benchmark wall_clock w
        = (Raise ZeroDivisionError, w'))%Q) /\
  (exists (training_data : DataLoading.DataLoader)
          (w0 w1 w1' w2 : DataLoading.world) (s1 s2 : Q),
     DataLoading.new_DataLoader
       (let opts :=
          DataLoading.replicationFactor
            (DataLoading.deviceIterations DataLoading.new_Options di) rep in
        if synthetic then DataLoading.enableSyntheticData opts true else opts)
       dataset_len bs w
     = (Ok training_data, w0) /\
     DataLoadingTrace.timed wall_clock
       (DataLoading.for_in training_data (fun _ => DataLoading.ret tt)) w0 w1 s1 /\
     DataLoading.bind
       (DataLoading.print
          (DataLoading.ItemsPerSecond "DataLoader"
             (inject_Z (DataLoading.len training_data * di * bs * rep) / s1)%Q))
       (fun _ => DataLoading.print
                   (DataLoading.Seconds "Dataloader execution time" s1)) w1
     = (Ok tt, w1') /\
     DataLoadingTrace.timed wall_clock
       (if synthetic
        then DataLoading.for_range (Z.to_nat (DataLoading.len training_data))
               DataLoading.training_model
        else DataLoading.for_in training_data
               (fun _ => DataLoading.training_model))
       w1' w2 s2 /\
     (~ (s1 == 0)%Q -> ~ (s2 == 0)%Q ->
      exists w' : DataLoading.world,
        DataLoading.validate_model_performance wall_clock
          dataset_len di bs rep nw synthetic w = (Ok tt, w') /\
        DataLoading.stdout w' =
        DataLoading.stdout w ++
        (let items := (DataLoading.len training_data * di * bs * rep)%Z in
         [DataLoading.ItemsPerSecond "DataLoader" (inject_Z items / s1)%Q;
          DataLoading.Seconds "Dataloader execution time" s1;
          DataLoading.ItemsPerSecond "IPU throughput" (inject_Z items / s2)%Q;
          DataLoading.Seconds "Dataloader with IPU training execution time" s2]))).
Proof.
  intros Hpos. split.
  - eexists _, _, _, _. split; [apply new_DataLoader_run; reflexivity |].
    split; [split; [apply (for_in_run _ 0 pass_body) | reflexivity] |].
    cbn [DataLoading.ticks DataLoading.len DataLoading.loader_id].
    split.
    + intros Hs. eexists. split.
      * apply data_loader_benchmark_run. exact Hs.
      * reflexivity.
    + intros Hs. eexists. unfold DataLoading.data_loader_benchmark.
      erewrite bind_ok; [| apply new_DataLoader_run; reflexivity].
      cbv beta.
      erewrite bind_ok;
        [| apply with_catchtime_run; apply (for_in_run _ 0 pass_body)].
      cbv beta.
      erewrite bind_ok; [| reflexivity]. cbv beta.
      erewrite bind_raise; [reflexivity |].
      apply py_truediv_zero. exact Hs.
  - destruct synthetic.
    + eexists _, _, _, _, _, _, _.
      split; [apply new_DataLoader_run; exact Hpos |].
      split; [split; [apply (for_in_run _ 0 pass_body) | reflexivity] |].
      split; [reflexivity |].
      split; [split; [apply for_range_run | reflexivity] |].
      intros Hs1 Hs2. eexists. split.
      * apply validate_model_performance_run; [exact Hpos | exact Hs1 | exact Hs2].
      * reflexivity.
    + eexists _, _, _, _, _, _, _.
      split; [apply new_DataLoader_run; exact Hpos |].
      split; [split; [apply (for_in_run _ 0 pass_body) | reflexivity] |].
      split; [reflexivity |].
      split; [split; [apply (for_in_run _ 1 training_body) | reflexivity] |].
      intros Hs1 Hs2. eexists. split.
      * apply validate_model_performance_run; [exact Hpos | exact Hs1 | exact Hs2].
      * reflexivity.
Qed.

Lemma throughput_is_items_over_seconds_witness :
  let wall_clock := fun n : nat => inject_Z (Z.of_nat n) in
  (0 < 16 * 50 * 4)%Z /\
  exists (w' : DataLoading.world) (s1 s2 : Q),
    ~ (s1 == 0)%Q /\ ~ (s2 == 0)%Q /\
    DataLoading.validate_model_performance wall_clock 10000 50 16 4 4 false
      DataLoading.initial_world = (Ok tt, w') /\
    DataLoading.stdout w' =
    [DataLoading.ItemsPerSecond "DataLoader" (inject_Z 9600 / s1)%Q;
     DataLoading.Seconds "Dataloader execution time" s1;
     DataLoading.ItemsPerSecond "IPU throughput" (inject_Z 9600 / s2)%Q;
     DataLoading.Seconds "Dataloader with IPU training execution time" s2].
Proof.
  cbv zeta.
  assert (Hpos : (0 < 16 * 50 * 4)%Z) by reflexivity.
  split; [exact Hpos |].
  destruct (throughput_is_items_over_seconds
              (fun n : nat => inject_Z (Z.of_nat n)) DataLoading.initial_world
              10000 50 16 4 4 false Hpos)
    as [_ (td & w0 & w1 & w1' & w2 & s1 & s2 & Hnew & [Hloop1 Hs1] & Hprint
           & [Hloop2 Hs2] & Hrun)].
  vm_compute in Hnew. injection Hnew as <- <-.
  vm_compute in Hloop1. injection Hloop1 as <-.
  vm_compute in Hs1. subst s1.
  vm_compute in Hprint. injection Hprint as <-.
  vm_compute in Hloop2. injection Hloop2 as <-.
  vm_compute in Hs2. subst s2.
  destruct Hrun as (w' & Hw' & Hout); [discriminate | discriminate |].
  exists w', (4 # 1)%Q, (7 # 1)%Q.
  split; [discriminate |]. split; [discriminate |].
  split; [exact Hw' | exact Hout].
Defined.

(** ** Keras demo: more on the length arithmetic *)

(** X1. With any non-zero divisor, positive or negative, [make_divisible]
    returns a multiple of the divisor less than one divisor away from the
    number: at or below the number for a positive divisor, at or above it
    for a negative one. *)
Theorem make_divisible_any_sign (number divisor : Z) :
  divisor <> 0 ->
  exists r : Z,
    KerasDemo.make_divisible number divisor = Ok r /\
    (divisor | r) /\
    Z.abs (number - r) < Z.abs divisor /\
    (0 < divisor -> r <= number) /\
    (divisor < 0 -> number <= r).
Proof.
  intros Hd. exists (number - number mod divisor).
  split; [apply make_divisible_ok; exact Hd |].
  split; [apply make_divisible_divides; exact Hd |].
  destruct (Z.lt_trichotomy divisor 0) as [Hneg | [Hz | Hpos]];
    [| contradiction |].
  - pose proof (Z.mod_neg_bound number divisor Hneg). lia.
  - pose proof (Z.mod_pos_bound number divisor Hpos). lia.
Qed.

Lemma make_divisible_any_sign_witness :
  -64 <> 0 /\
  exists r : Z,
    KerasDemo.make_divisible 100 (-64) = Ok r /\
    (-64 | r) /\ Z.abs (100 - r) < Z.abs (-64) /\ 100 <= r.
Proof.
  assert (H : -64 <> 0) by discriminate.
  split; [exact H |].
  destruct (make_divisible_any_sign 100 (-64) H) as (r & Hr & Hdiv & Habs & _ & Hup).
  exists r. repeat split; [exact Hr | exact Hdiv | exact Habs |].
  apply Hup. reflexivity.
Defined.

(** X2. The lengths [make_divisible] leaves alone are exactly the
    multiples of the divisor, and adjusting an adjusted length changes
    nothing. *)
Theorem make_divisible_fixed_points (number divisor r : Z) :
  divisor <> 0 ->
  (KerasDemo.make_divisible number divisor = Ok number <-> (divisor | number)) /\
  (KerasDemo.make_divisible number divisor = Ok r ->
   KerasDemo.make_divisible r divisor = Ok r).
Proof.
  intros Hd. split.
  - rewrite make_divisible_ok by exact Hd. split.
    + intros H. injection H as H.
      apply Z.mod_divide; [exact Hd | lia].
    + intros H. apply Z.mod_divide in H; [| exact Hd]. rewrite H.
      f_equal. lia.
  - rewrite !make_divisible_ok by exact Hd. intros H. injection H as <-.
    pose proof (make_divisible_divides number divisor Hd) as Hdiv.
    apply Z.mod_divide in Hdiv; [| exact Hd]. rewrite Hdiv. f_equal. lia.
Qed.

Lemma make_divisible_fixed_points_witness :
  64 <> 0 /\
  KerasDemo.make_divisible 60000 64 = Ok 59968 /\
  KerasDemo.make_divisible 59968 64 = Ok 59968 /\
  (64 | 59968).
Proof.
  assert (H : 64 <> 0) by discriminate.
  split; [exact H |]. split; [reflexivity |].
  assert (Hfix : KerasDemo.make_divisible 59968 64 = Ok 59968).
  { apply (proj2 (make_divisible_fixed_points 60000 64 59968 H)). reflexivity. }
  split; [exact Hfix |].
  apply (proj1 (make_divisible_fixed_points 59968 64 0 H)). exact Hfix.
Defined.

Section KerasExecutionFacts.

Import KerasDemo.

(** What an adjusted length is, once the steps-per-execution value [steps]
    is positive. *)
Lemma whole_executions (data_len steps : Z) :
  0 <= data_len -> 0 < steps ->
  let kept := data_len - data_len mod (steps * 64) in
  0 <= kept <= data_len /\ kept mod 64 = 0 /\ (kept / 64) mod steps = 0.
Proof.
  intros Hlen Hs kept.
  assert (Hd : 0 < steps * 64) by lia.
  assert (Hk : kept = data_len / (steps * 64) * steps * 64).
  { subst kept. pose proof (Z.div_mod data_len (steps * 64)). nia. }
  pose proof (Z.mod_pos_bound data_len (steps * 64) Hd) as Hr.
  pose proof (Z.mod_le data_len (steps * 64) Hlen Hd) as Hle.
  split; [subst kept; lia |].
  rewrite Hk. split.
  - apply Z.mod_mul. discriminate.
  - rewrite Z.div_mul by discriminate. apply Z.mod_mul. lia.
Qed.

Lemma replication_adjust_inv (data_len steps kept : Z) :
  0 <= data_len ->
  Replication.adjust data_len = Ok (steps, kept) ->
  0 < steps /\ kept = data_len - data_len mod (steps * 64).
Proof.
  intros Hlen H. rewrite replication_adjust_eq in H. cbn zeta in H.
  destruct (Z.eqb_spec ((data_len / 128 - (data_len / 128) mod 2) * 64) 0)
    as [E | NE]; [discriminate |].
  injection H as <- <-. split; [| reflexivity].
  Z.div_mod_to_equations. lia.
Qed.

Lemma pipelining_adjust_inv (data_len steps kept : Z) :
  0 <= data_len ->
  Pipelining.adjust data_len = Ok (steps, kept) ->
  0 < steps /\ kept = data_len - data_len mod (steps * 64).
Proof.
  intros Hlen H. rewrite pipelining_adjust_eq in H. cbn zeta in H.
  destruct (Z.eqb_spec ((data_len / 64 - (data_len / 64) mod 8) * 64) 0)
    as [E | NE]; [discriminate |].
  injection H as <- <-. split; [| reflexivity].
  Z.div_mod_to_equations. lia.
Qed.

Lemma steps_per_execution_adjust_inv (data_len steps kept : Z) :
  0 <= data_len ->
  adjust_steps_per_execution data_len = Ok (steps, kept) ->
  0 < steps /\ kept = data_len - data_len mod (steps * 64).
Proof.
  intros Hlen H. unfold adjust_steps_per_execution in H.
  rewrite py_floordiv_ok in H by discriminate. cbn [rbind] in H.
  change batch_size with 64 in H.
  destruct (Z.eq_dec (data_len / 64 * 64) 0) as [E | NE].
  - rewrite E in H. discriminate.
  - rewrite make_divisible_ok in H by exact NE. cbn [rbind] in H.
    injection H as <- <-. split; [| reflexivity].
    Z.div_mod_to_equations. lia.
Qed.

End KerasExecutionFacts.

(** X3. In the steps_per_execution section a data set of at least one
    batch keeps all its whole batches, the same length the plain IPU
    section keeps, and the steps-per-execution value is the number of those
    batches: an epoch is one execution.  A data set of less than one batch
    makes this section divide by zero, where the plain IPU section keeps 0
    samples. *)
Theorem steps_per_execution_section (data_len : Z) :
  0 <= data_len ->
  (64 <= data_len ->
   KerasDemo.adjust_steps_per_execution data_len
   = Ok (data_len / 64, data_len / 64 * 64) /\
   KerasDemo.adjust_ipu data_len = Ok (data_len / 64 * 64)) /\
  (data_len < 64 ->
   KerasDemo.adjust_steps_per_execution data_len = Raise ZeroDivisionError /\
   KerasDemo.adjust_ipu data_len = Ok 0).
Proof.
  intros Hlen. split.
  - intros Hbig. split; [apply adjust_steps_per_execution_ok; exact Hbig |].
    rewrite adjust_ipu_ok. f_equal. Z.div_mod_to_equations. lia.
  - intros Hsmall. split; [apply adjust_steps_per_execution_small; lia |].
    rewrite adjust_ipu_ok. f_equal. rewrite Z.mod_small by lia. lia.
Qed.

Lemma steps_per_execution_section_witness :
  (0 <= 10000 /\ 64 <= 10000 /\
   KerasDemo.adjust_steps_per_execution 10000 = Ok (156, 9984)) /\
  (0 <= 63 /\ 63 < 64 /\
   KerasDemo.adjust_steps_per_execution 63 = Raise ZeroDivisionError).
Proof.
  assert (Ha : 0 <= 10000) by discriminate.
  assert (Hb : 0 <= 63) by discriminate.
  split.
  - split; [exact Ha |]. split; [discriminate |].
    apply (proj1 (steps_per_execution_section 10000 Ha)). discriminate.
  - split; [exact Hb |]. split; [reflexivity |].
    apply (proj2 (steps_per_execution_section 63 Hb)). reflexivity.
Defined.

(** X4. In the replication section the steps-per-execution value is a
    multiple of the replica count for every data set, and from 512 samples
    on the kept length is exactly two executions' worth of batches, with
    fewer than 256 samples dropped. *)
Theorem replication_two_executions (data_len : Z) :
  0 <= data_len ->
  exists steps : Z,
    KerasDemo.Replication.steps_per_execution data_len = Ok steps /\
    (KerasDemo.Replication.num_replicas | steps) /\
    (512 <= data_len ->
     KerasDemo.Replication.adjust data_len
     = Ok (steps, 2 * (steps * KerasDemo.batch_size)) /\
     0 <= data_len - 2 * (steps * KerasDemo.batch_size) < 256).
Proof.
  intros Hlen. eexists. split; [apply replication_steps_eq |].
  split.
  - apply make_divisible_divides. discriminate.
  - intros Hbig.
    destruct (replication_adjust_large data_len Hbig) as [Hs Heq].
    cbn zeta in Heq. split; [exact Heq |].
    unfold KerasDemo.batch_size. Z.div_mod_to_equations. lia.
Qed.

Lemma replication_two_executions_witness :
  0 <= 60000 /\ 512 <= 60000 /\
  KerasDemo.Replication.adjust 60000 = Ok (468, 59904) /\
  (KerasDemo.Replication.num_replicas | 468).
Proof.
  assert (Ha : 0 <= 60000) by discriminate.
  assert (Hb : 512 <= 60000) by discriminate.
  destruct (replication_two_executions 60000 Ha) as (steps & Hs & Hdiv & Hbig).
  change (KerasDemo.Replication.steps_per_execution 60000) with (@Ok Z 468) in Hs.
  injection Hs as <-.
  split; [exact Ha |]. split; [exact Hb |].
  split; [exact (proj1 (Hbig Hb)) | exact Hdiv].
Defined.

(** X5. In the pipelining section the steps-per-execution value is a
    multiple of the total gradient accumulation steps for every data set,
    and from 512 samples on the kept length is exactly one execution's
    worth of batches, with fewer than 512 samples dropped. *)
Theorem pipelining_one_execution (data_len : Z) :
  0 <= data_len ->
  exists steps : Z,
    KerasDemo.Pipelining.steps_per_execution data_len = Ok steps /\
    (KerasDemo.Pipelining.total_gradient_accumulation_steps | steps) /\
    (512 <= data_len ->
     KerasDemo.Pipelining.adjust data_len
     = Ok (steps, steps * KerasDemo.batch_size) /\
     0 <= data_len - steps * KerasDemo.batch_size < 512).
Proof.
  intros Hlen. eexists. split; [apply pipelining_steps_eq |].
  split.
  - change KerasDemo.Pipelining.total_gradient_accumulation_steps with 8.
    apply make_divisible_divides. discriminate.
  - intros Hbig. rewrite pipelining_adjust_eq. cbn zeta.
    unfold KerasDemo.batch_size.
    set (steps := data_len / 64 - (data_len / 64) mod 8).
    assert (Hs : 8 <= steps) by (subst steps; Z.div_mod_to_equations; lia).
    assert (Hrest : 0 <= data_len - steps * 64 < 512)
      by (subst steps; Z.div_mod_to_equations; lia).
    destruct (Z.eqb_spec (steps * 64) 0) as [E | _]; [lia |].
    split; [| exact Hrest].
    replace data_len with (1 * (steps * 64) + (data_len - steps * 64)) at 1 2
      by ring.
    rewrite mod_after_multiple by lia.
    do 2 f_equal. ring.
Qed.

Lemma pipelining_one_execution_witness :
  0 <= 60000 /\ 512 <= 60000 /\
  KerasDemo.Pipelining.adjust 60000 = Ok (936, 59904) /\
  (KerasDemo.Pipelining.total_gradient_accumulation_steps | 936).
Proof.
  assert (Ha : 0 <= 60000) by discriminate.
  assert (Hb : 512 <= 60000) by discriminate.
  destruct (pipelining_one_execution 60000 Ha) as (steps & Hs & Hdiv & Hbig).
  change (KerasDemo.Pipelining.steps_per_execution 60000) with (@Ok Z 936) in Hs.
  injection Hs as <-.
  split; [exact Ha |]. split; [exact Hb |].
  split; [exact (proj1 (Hbig Hb)) | exact Hdiv].
Defined.

(** X6. Whenever one of the three adjustments returns, what it returns
    can be trained on: the kept length is at most the original, it is a
    whole number of batches, and that number of batches is a multiple of the
    steps-per-execution value, which is positive. *)
Theorem adjusted_length_fits_executions (data_len steps kept : Z) :
  0 <= data_len ->
  KerasDemo.adjust_steps_per_execution data_len = Ok (steps, kept) \/
  KerasDemo.Replication.adjust data_len = Ok (steps, kept) \/
  KerasDemo.Pipelining.adjust data_len = Ok (steps, kept) ->
  0 < steps /\
  0 <= kept <= data_len /\
  kept mod KerasDemo.batch_size = 0 /\
  (kept / KerasDemo.batch_size) mod steps = 0.
Proof.
  intros Hlen H.
  assert (Hinv : 0 < steps /\ kept = data_len - data_len mod (steps * 64)).
  { destruct H as [H | [H | H]].
    - exact (steps_per_execution_adjust_inv _ _ _ Hlen H).
    - exact (replication_adjust_inv _ _ _ Hlen H).
    - exact (pipelining_adjust_inv _ _ _ Hlen H). }
  destruct Hinv as [Hs ->]. split; [exact Hs |].
  exact (whole_executions data_len steps Hlen Hs).
Qed.

Lemma adjusted_length_fits_executions_witness :
  0 <= 10000 /\
  KerasDemo.Pipelining.adjust 10000 = Ok (152, 9728) /\
  0 < 152 /\ 0 <= 9728 <= 10000 /\
  9728 mod KerasDemo.batch_size = 0 /\
  (9728 / KerasDemo.batch_size) mod 152 = 0.
Proof.
  assert (Ha : 0 <= 10000) by discriminate.
  assert (Hp : KerasDemo.Pipelining.adjust 10000 = Ok (152, 9728)) by reflexivity.
  split; [exact Ha |]. split; [exact Hp |].
  exact (adjusted_length_fits_executions 10000 152 9728 Ha
           (or_intror (or_intror Hp))).
Defined.

Section KerasTruncationFacts.

Import KerasDemo KerasData.

Lemma slice_to_firstn {A : Type} (xs : list A) (n : Z) :
  0 <= n -> slice_to xs n = firstn (Z.to_nat n) xs.
Proof.
  intros Hn. unfold slice_to.
  destruct (Z.ltb_spec n 0); [lia | reflexivity].
Qed.

(** Cutting samples and labels at the same length keeps them paired. *)
Lemma slices_paired {A B : Type} (xs : list A) (ys : list B) (n : Z) :
  List.length xs = List.length ys ->
  0 <= n <= shape0 xs ->
  Z.of_nat (List.length (slice_to xs n)) = n /\
  List.length (slice_to ys n) = List.length (slice_to xs n) /\
  combine (slice_to xs n) (slice_to ys n)
  = firstn (List.length (slice_to xs n)) (combine xs ys).
Proof.
  unfold shape0. intros Hsame Hn.
  rewrite (slice_to_firstn xs n), (slice_to_firstn ys n) by lia.
  rewrite !length_firstn, <- Hsame.
  rewrite (Nat.min_l (Z.to_nat n)) by lia.
  split; [lia |]. split; [reflexivity |].
  symmetry. apply combine_firstn.
Qed.

(** What the three adjustments with a steps-per-execution value return. *)
Lemma adjusted_facts (data_len steps kept : Z) :
  0 <= data_len ->
  adjust_steps_per_execution data_len = Ok (steps, kept) \/
  Replication.adjust data_len = Ok (steps, kept) \/
  Pipelining.adjust data_len = Ok (steps, kept) ->
  0 < steps /\ 0 <= kept <= data_len /\
  kept mod 64 = 0 /\ (kept / 64) mod steps = 0.
Proof.
  intros Hlen H.
  assert (Hinv : 0 < steps /\ kept = data_len - data_len mod (steps * 64)).
  { destruct H as [H | [H | H]].
    - exact (steps_per_execution_adjust_inv _ _ _ Hlen H).
    - exact (replication_adjust_inv _ _ _ Hlen H).
    - exact (pipelining_adjust_inv _ _ _ Hlen H). }
  destruct Hinv as [Hs ->]. split; [exact Hs |].
  exact (whole_executions data_len steps Hlen Hs).
Qed.

(** A truncation is its adjustment followed by the two cuts. *)
Lemma truncate_inv {A B : Type}
  (adjust : Z -> result (Z * Z)) (x_train : list A) (y_train : list B)
  (steps : Z) (x' : list A) (y' : list B) :
  rbind (adjust (shape0 x_train))
    (fun adjusted =>
       Ok (fst adjusted,
           (slice_to x_train (snd adjusted), slice_to y_train (snd adjusted))))
  = Ok (steps, (x', y')) ->
  exists kept : Z,
    adjust (shape0 x_train) = Ok (steps, kept) /\
    x' = slice_to x_train kept /\ y' = slice_to y_train kept.
Proof.
  destruct (adjust (shape0 x_train)) as [[s kept] | e]; cbn; [| discriminate].
  intros H. injection H as <- <- <-. exists kept. repeat split.
Qed.

End KerasTruncationFacts.

(** X7. Cutting [x_train] and [y_train] to the adjusted length keeps
    samples and labels paired: both arrays end up with the adjusted number
    of rows, and row [i] of one still belongs to row [i] of the other.  The
    plain IPU section always returns, keeping a whole number of batches and
    dropping fewer than 64 samples; in the three sections with a
    steps-per-execution value, whenever the truncation returns, the kept
    batches are a multiple of that value. *)
Theorem truncation_keeps_pairs {A B : Type}
  (x_train : list A) (y_train : list B) :
  List.length x_train = List.length y_train ->
  (exists (x' : list A) (y' : list B),
     KerasData.truncate_ipu x_train y_train = Ok (x', y') /\
     List.length y' = List.length x' /\
     Z.of_nat (List.length x') mod KerasDemo.batch_size = 0 /\
     0 <= KerasData.shape0 x_train - Z.of_nat (List.length x')
       < KerasDemo.batch_size /\
     combine x' y' = firstn (List.length x') (combine x_train y_train)) /\
  (forall (steps : Z) (x' : list A) (y' : list B),
     KerasData.truncate_steps_per_execution x_train y_train = Ok (steps, (x', y')) \/
     KerasData.truncate_replication x_train y_train = Ok (steps, (x', y')) \/
     KerasData.truncate_pipelining x_train y_train = Ok (steps, (x', y')) ->
     List.length y' = List.length x' /\
     Z.of_nat (List.length x') mod KerasDemo.batch_size = 0 /\
     (Z.of_nat (List.length x') / KerasDemo.batch_size) mod steps = 0 /\
     combine x' y' = firstn (List.length x') (combine x_train y_train)).
Proof.
  intros Hsame.
  assert (Hlen : 0 <= KerasData.shape0 x_train)
    by (unfold KerasData.shape0; lia).
  split.
  - unfold KerasData.truncate_ipu. cbn zeta.
    rewrite make_divisible_ok by discriminate. cbn [rbind].
    change KerasDemo.batch_size with 64.
    set (kept := KerasData.shape0 x_train - KerasData.shape0 x_train mod 64).
    pose proof (Z.mod_pos_bound (KerasData.shape0 x_train) 64 eq_refl) as Hr.
    pose proof (Z.mod_le (KerasData.shape0 x_train) 64 Hlen eq_refl) as Hle.
    assert (Hk : 0 <= kept <= KerasData.shape0 x_train) by (subst kept; lia).
    destruct (slices_paired x_train y_train kept Hsame Hk) as (Hn & Hy & Hc).
    eexists _, _. split; [reflexivity |].
    split; [exact Hy |]. rewrite Hn.
    split; [| split; [subst kept; lia | exact Hc]].
    apply Z.mod_divide; [discriminate |].
    subst kept. apply make_divisible_divides. discriminate.
  - intros steps x' y' H.
    assert (Hex : exists kept : Z,
              (KerasDemo.adjust_steps_per_execution (KerasData.shape0 x_train)
               = Ok (steps, kept) \/
               KerasDemo.Replication.adjust (KerasData.shape0 x_train)
               = Ok (steps, kept) \/
               KerasDemo.Pipelining.adjust (KerasData.shape0 x_train)
               = Ok (steps, kept)) /\
              x' = KerasData.slice_to x_train kept /\
              y' = KerasData.slice_to y_train kept).
    { destruct H as [H | [H | H]];
        apply truncate_inv in H; destruct H as (kept & Hadj & Hx & Hy);
        exists kept; auto. }
    destruct Hex as (kept & Hadj & -> & ->).
    destruct (adjusted_facts _ _ _ Hlen Hadj) as (Hs & Hk & Hb & He).
    destruct (slices_paired x_train y_train kept Hsame Hk) as (Hn & Hy & Hc).
    change KerasDemo.batch_size with 64. rewrite Hn.
    repeat split; assumption.
Qed.

Lemma truncation_keeps_pairs_witness :
  let x_train := List.repeat 7 130 in
  let y_train := List.repeat true 130 in
  List.length x_train = List.length y_train /\
  exists (x' : list Z) (y' : list bool),
    KerasData.truncate_ipu x_train y_train = Ok (x', y') /\
    List.length y' = List.length x' /\
    combine x' y' = firstn (List.length x') (combine x_train y_train).
Proof.
  cbv zeta.
  assert (H : List.length (List.repeat 7 130) = List.length (List.repeat true 130))
    by reflexivity.
  split; [exact H |].
  destruct (proj1 (truncation_keeps_pairs (List.repeat 7 130)
                     (List.repeat true 130) H))
    as (x' & y' & Ht & Hy & _ & _ & Hc).
  exists x', y'. repeat split; assumption.
Defined.

(** ** PopTorch MNIST: more on the command line *)

(** X8. For every command line, the script trains with the last value
    given on [--batch-size], [--test-batch-size], [--epochs] and [--lr], and
    with the parser's defaults 8, 80, 10 and 0.05 for the flags that are
    absent; the literals of lines 9-15 (among them a learning rate of 0.03)
    never reach training.  The test loader is built from fresh options: it
    runs one device iteration whatever the command line says. *)
Theorem script_configuration (argv : list PopTorchMNIST.cli_arg) :
  let run := PopTorchMNIST.script argv in
  PopTorchMNIST.loader_batch_size (PopTorchMNIST.training_data run)
  = match PopTorchMNIST.given PopTorchMNIST.pick_batch_size argv with
    | Some v => v
    | None => 8
    end /\
  PopTorchMNIST.loader_batch_size (PopTorchMNIST.test_data run)
  = match PopTorchMNIST.given PopTorchMNIST.pick_test_batch_size argv with
    | Some v => v
    | None => 80
    end /\
  PopTorchMNIST.loop_epochs run
  = match PopTorchMNIST.given PopTorchMNIST.pick_epochs argv with
    | Some v => v
    | None => 10
    end /\
  PopTorchMNIST.optimizer_lr (PopTorchMNIST.training_model run)
  = match PopTorchMNIST.given PopTorchMNIST.pick_lr argv with
    | Some v => v
    | None => 0.05%Q
    end /\
  PopTorchMNIST.deviceIterations
    (PopTorchMNIST.options (PopTorchMNIST.test_data run)) = 1.
Proof.
  cbv zeta. unfold PopTorchMNIST.script.
  cbn [PopTorchMNIST.training_data PopTorchMNIST.test_data
       PopTorchMNIST.training_model PopTorchMNIST.loop_epochs
       PopTorchMNIST.loader_batch_size PopTorchMNIST.optimizer_lr
       PopTorchMNIST.options].
  unfold PopTorchMNIST.parse_args.
  rewrite fold_store_batch_size, fold_store_test_batch_size,
    fold_store_epochs, fold_store_lr.
  repeat split.
Qed.

(** ** The image sizes the PyTorch models take *)

Section ShapeFacts.

Import TorchShapes.

Lemma obind_Some {A B : Type} (c : option A) (k : A -> option B) (y : B) :
  obind c k = Some y <-> exists a : A, c = Some a /\ k a = Some y.
Proof.
  destruct c as [a |]; cbn.
  - split; [intros H; exists a; auto | intros (a' & E & H); congruence].
  - split; [discriminate | intros (a' & E & _); discriminate].
Qed.

Lemma Conv2d_Some (ci co k n c h w : Z) (y : shape4) :
  Conv2d ci co k (n, c, h, w) = Some y <->
  c = ci /\ k <= h /\ k <= w /\ y = (n, co, h - k + 1, w - k + 1).
Proof.
  unfold Conv2d.
  destruct (Z.eqb_spec c ci) as [Ec | Ec]; cbn [negb];
    [| split; [discriminate | intros (E & _); contradiction]].
  destruct (Z.ltb_spec h k) as [Lh | Lh]; cbn [orb];
    [split; [discriminate | lia] |].
  destruct (Z.ltb_spec w k) as [Lw | Lw];
    [split; [discriminate | lia] |].
  split; [intros H; injection H as <-; auto | intros (_ & _ & _ & ->); reflexivity].
Qed.

Lemma MaxPool2d_Some (k n c h w : Z) (y : shape4) :
  MaxPool2d k (n, c, h, w) = Some y <->
  k <= h /\ k <= w /\ y = (n, c, (h - k) / k + 1, (w - k) / k + 1).
Proof.
  unfold MaxPool2d.
  destruct (Z.ltb_spec h k) as [Lh | Lh]; cbn [orb];
    [split; [discriminate | lia] |].
  destruct (Z.ltb_spec w k) as [Lw | Lw];
    [split; [discriminate | lia] |].
  split; [intros H; injection H as <-; auto | intros (_ & _ & ->); reflexivity].
Qed.

Lemma Linear_Some (fi fo rows features : Z) (y : shape2) :
  Linear fi fo (rows, features) = Some y <-> features = fi /\ y = (rows, fo).
Proof.
  unfold Linear. destruct (Z.eqb_spec features fi) as [Ef | Ef]; cbn [negb].
  - split; [intros H; injection H as <-; auto | intros (_ & ->); reflexivity].
  - split; [discriminate | intros (E & _); contradiction].
Qed.

Lemma GroupNorm_Some (g ch n c h w : Z) (y : shape4) :
  GroupNorm g ch (n, c, h, w) = Some y <-> c = ch /\ y = (n, c, h, w).
Proof.
  unfold GroupNorm. destruct (Z.eqb_spec c ch) as [Ec | Ec]; cbn [negb].
  - split; [intros H; injection H as <-; auto | intros (_ & ->); reflexivity].
  - split; [discriminate | intros (E & _); contradiction].
Qed.

Lemma view_rows_Some (features n c h w : Z) (y : shape2) :
  features <> 0 ->
  view_rows features (n, c, h, w) = Some y <->
  (features | n * c * h * w) /\ y = (n * c * h * w / features, features).
Proof.
  intros Hf. unfold view_rows. cbn zeta.
  destruct (Z.eqb_spec (n * c * h * w mod features) 0) as [E | NE].
  - apply Z.mod_divide in E; [| exact Hf].
    split; [intros H; injection H as <-; auto | intros (_ & ->); reflexivity].
  - split; [discriminate |].
    intros (Hd & _). apply Z.mod_divide in Hd; [contradiction | exact Hf].
Qed.

Lemma Block_forward_Some (ci co k p n c h w : Z) (y : shape4) :
  Block_forward ci co k p (n, c, h, w) = Some y <->
  c = ci /\ k <= h /\ k <= w /\ p <= h - k + 1 /\ p <= w - k + 1 /\
  y = (n, co, (h - k + 1 - p) / p + 1, (w - k + 1 - p) / p + 1).
Proof.
  unfold Block_forward. rewrite obind_Some. split.
  - intros (a & Hc & Hrest). apply Conv2d_Some in Hc.
    destruct Hc as (-> & Hh & Hw & ->).
    apply obind_Some in Hrest. destruct Hrest as (b & Hp & Hb).
    apply MaxPool2d_Some in Hp. destruct Hp as (Hph & Hpw & ->).
    injection Hb as <-. auto 7.
  - intros (-> & Hh & Hw & Hph & Hpw & ->).
    eexists. split; [apply Conv2d_Some; auto |].
    apply obind_Some. eexists. split; [apply MaxPool2d_Some; auto | reflexivity].
Qed.

(** [Network.forward], from the shape of its input to the shape of its
    output. *)
Lemma Network_forward_Some (n h w rows cols : Z) :
  Network_forward (n, 1, h, w) = Some (rows, cols) <->
  10 <= h /\ 10 <= w /\ cols = 10 /\
  rows * 1600 = n * 64 * (((h - 4) / 2 - 3) / 2 + 1) * (((w - 4) / 2 - 3) / 2 + 1).
Proof.
  assert (Hsize : forall x : Z,
            3 <= x -> 2 <= x - 3 + 1 -> 3 <= (x - 3 + 1 - 2) / 2 + 1 ->
            2 <= (x - 3 + 1 - 2) / 2 + 1 - 3 + 1 ->
            10 <= x /\
            ((x - 3 + 1 - 2) / 2 + 1 - 3 + 1 - 2) / 2 + 1
            = ((x - 4) / 2 - 3) / 2 + 1).
  { intros x H1 H2 H3 H4. split; [Z.div_mod_to_equations; lia |].
    replace (x - 3 + 1 - 2) with (x - 4) by lia.
    replace ((x - 4) / 2 + 1 - 3 + 1 - 2) with ((x - 4) / 2 - 3) by lia.
    reflexivity. }
  assert (Hback : forall x : Z,
            10 <= x ->
            3 <= x /\ 2 <= x - 3 + 1 /\ 3 <= (x - 3 + 1 - 2) / 2 + 1 /\
            2 <= (x - 3 + 1 - 2) / 2 + 1 - 3 + 1)
    by (intros x Hx; Z.div_mod_to_equations; lia).
  unfold Network_forward. rewrite obind_Some. split.
  - intros (a & Hb1 & Hrest). apply Block_forward_Some in Hb1.
    destruct Hb1 as (_ & H1h & H1w & H2h & H2w & ->).
    apply obind_Some in Hrest. destruct Hrest as (b & Hb2 & Hrest).
    apply Block_forward_Some in Hb2.
    destruct Hb2 as (_ & H3h & H3w & H4h & H4w & ->).
    apply obind_Some in Hrest. destruct Hrest as (v & Hv & Hrest).
    apply view_rows_Some in Hv; [| discriminate].
    destruct Hv as (Hdiv & ->).
    apply obind_Some in Hrest. destruct Hrest as (l3 & Hl3 & Hrest).
    apply Linear_Some in Hl3. destruct Hl3 as (_ & ->).
    apply obind_Some in Hrest. destruct Hrest as (l4 & Hl4 & Hrest).
    apply Linear_Some in Hl4. destruct Hl4 as (_ & ->).
    injection Hrest as <- <-.
    destruct (Hsize h H1h H2h H3h H4h) as (Hh & Eh).
    destruct (Hsize w H1w H2w H3w H4w) as (Hw & Ew).
    rewrite <- Eh, <- Ew.
    repeat split; [exact Hh | exact Hw |].
    destruct Hdiv as [q Hq]. rewrite Hq, Z.div_mul by discriminate.
    reflexivity.
  - intros (Hh & Hw & -> & Hrows).
    destruct (Hback h Hh) as (H1h & H2h & H3h & H4h).
    destruct (Hback w Hw) as (H1w & H2w & H3w & H4w).
    destruct (Hsize h H1h H2h H3h H4h) as (_ & Eh).
    destruct (Hsize w H1w H2w H3w H4w) as (_ & Ew).
    rewrite <- Eh, <- Ew in Hrows.
    eexists. split; [apply Block_forward_Some; auto 7 |].
    apply obind_Some. eexists. split; [apply Block_forward_Some; auto 7 |].
    apply obind_Some. eexists. split.
    { apply view_rows_Some; [discriminate |]. split; [| reflexivity].
      exists rows. symmetry. exact Hrows. }
    apply obind_Some. eexists. split; [apply Linear_Some; auto |].
    apply obind_Some. eexists. split; [apply Linear_Some; auto |].
    rewrite <- Hrows, Z.div_mul by discriminate. reflexivity.
Qed.

Lemma NLLLoss_Some (rows classes : Z) (labels : option Z) (loss : unit) :
  NLLLoss (rows, classes) labels = Some loss <-> labels = Some rows.
Proof.
  unfold NLLLoss. destruct labels as [count |]; [| split; discriminate].
  destruct (Z.eqb_spec count rows) as [-> | NE].
  - destruct loss. split; reflexivity.
  - split; [discriminate | intros H; injection H as ->; contradiction].
Qed.

(** [ClassificationModel.forward], likewise: in training mode it needs one
    label per image and returns the scores with the loss, in evaluation
    mode it returns the scores. *)
Lemma ClassificationModel_forward_Some (fc1 : Z) (training : bool)
  (n h w : Z) (labels : option Z) (r : forward_result) :
  ClassificationModel_forward fc1 training (n, 1, h, w) labels = Some r <->
  12 <= h /\ 12 <= w /\
  fc1 = 12 * ((h - 4) / 2 - 3) * ((w - 4) / 2 - 3) /\
  (if training then labels = Some n /\ r = ScoresAndLoss (n, 10)
   else r = Scores (n, 10)).
Proof.
  assert (Hsize : forall x : Z,
            3 <= x -> 2 <= x - 3 + 1 -> 5 <= (x - 3 + 1 - 2) / 2 + 1 ->
            12 <= x /\ (x - 3 + 1 - 2) / 2 + 1 - 5 + 1 = (x - 4) / 2 - 3).
  { intros x H1 H2 H3. split; [Z.div_mod_to_equations; lia |].
    replace (x - 3 + 1 - 2) with (x - 4) by lia. lia. }
  assert (Hback : forall x : Z,
            12 <= x ->
            3 <= x /\ 2 <= x - 3 + 1 /\ 5 <= (x - 3 + 1 - 2) / 2 + 1)
    by (intros x Hx; Z.div_mod_to_equations; lia).
  unfold ClassificationModel_forward. rewrite obind_Some. split.
  - intros (a & Hc1 & Hrest). apply Conv2d_Some in Hc1.
    destruct Hc1 as (_ & H1h & H1w & ->).
    apply obind_Some in Hrest. destruct Hrest as (b & Hp & Hrest).
    apply MaxPool2d_Some in Hp. destruct Hp as (H2h & H2w & ->).
    apply obind_Some in Hrest. destruct Hrest as (c & Hc2 & Hrest).
    apply Conv2d_Some in Hc2. destruct Hc2 as (_ & H3h & H3w & ->).
    apply obind_Some in Hrest. destruct Hrest as (g & Hg & Hrest).
    apply GroupNorm_Some in Hg. destruct Hg as (_ & ->).
    cbn zeta in Hrest. unfold flatten1 in Hrest.
    apply obind_Some in Hrest. destruct Hrest as (l1 & Hl1 & Hrest).
    apply Linear_Some in Hl1. destruct Hl1 as (Hfc & ->).
    apply obind_Some in Hrest. destruct Hrest as (l2 & Hl2 & Hrest).
    apply Linear_Some in Hl2. destruct Hl2 as (_ & ->).
    destruct (Hsize h H1h H2h H3h) as (Hh & Eh).
    destruct (Hsize w H1w H2w H3w) as (Hw & Ew).
    rewrite Eh, Ew in Hfc.
    split; [exact Hh |]. split; [exact Hw |].
    split; [rewrite <- Hfc; ring |].
    destruct training.
    + apply obind_Some in Hrest. destruct Hrest as (loss & Hloss & Hr).
      apply NLLLoss_Some in Hloss. injection Hr as <-.
      split; [exact Hloss | reflexivity].
    + injection Hrest as <-. reflexivity.
  - intros (Hh & Hw & -> & Hr).
    destruct (Hback h Hh) as (H1h & H2h & H3h).
    destruct (Hback w Hw) as (H1w & H2w & H3w).
    destruct (Hsize h H1h H2h H3h) as (_ & Eh).
    destruct (Hsize w H1w H2w H3w) as (_ & Ew).
    eexists. split; [apply Conv2d_Some; auto |].
    apply obind_Some. eexists. split; [apply MaxPool2d_Some; auto |].
    apply obind_Some. eexists. split; [apply Conv2d_Some; auto |].
    apply obind_Some. eexists. split; [apply GroupNorm_Some; auto |].
    cbn zeta. unfold flatten1.
    apply obind_Some. eexists. split.
    { apply Linear_Some. split; [| reflexivity]. rewrite Eh, Ew. ring. }
    apply obind_Some. eexists. split; [apply Linear_Some; auto |].
    destruct training.
    + destruct Hr as (-> & ->).
      apply obind_Some. exists tt. split; [| reflexivity].
      apply NLLLoss_Some. reflexivity.
    + rewrite Hr. reflexivity.
Qed.

End ShapeFacts.

(** X9. The PopTorch MNIST [Network] returns one row of 10 class scores
    per image exactly for square one-channel images of 26 to 29 pixels a
    side (MNIST's 28 among them).  Because the features are flattened with
    [view(-1, 1600)], other sizes are not always refused: a batch of [25 * n]
    images of 22 by 22 pixels comes out as [16 * n] rows. *)
Theorem network_image_sizes (n s : Z) :
  1 <= n ->
  (TorchShapes.Network_forward (n, 1, s, s) = Some (n, 10) <-> 26 <= s <= 29) /\
  TorchShapes.Network_forward (25 * n, 1, 22, 22) = Some (16 * n, 10).
Proof.
  intros Hn. split.
  - rewrite Network_forward_Some. split.
    + intros (Hs & _ & _ & Hrows).
      set (a := ((s - 4) / 2 - 3) / 2 + 1) in *.
      assert (Ha : 1 <= a) by (subst a; Z.div_mod_to_equations; lia).
      assert (Haa : a * a = 25).
      { apply (Z.mul_cancel_l _ _ (n * 64)); [lia | lia]. }
      assert (Ha5 : a = 5) by nia.
      subst a. Z.div_mod_to_equations. lia.
    + intros Hs.
      assert (Ha : ((s - 4) / 2 - 3) / 2 + 1 = 5)
        by (Z.div_mod_to_equations; lia).
      rewrite Ha. repeat split; lia.
  - apply Network_forward_Some.
    split; [discriminate | split; [discriminate | split; [reflexivity |]]].
    change (((22 - 4) / 2 - 3) / 2 + 1) with 4. ring.
Qed.

Lemma network_image_sizes_witness :
  1 <= 8 /\
  TorchShapes.Network_forward (8, 1, 28, 28) = Some (8, 10) /\
  TorchShapes.Network_forward (200, 1, 22, 22) = Some (128, 10).
Proof.
  assert (H : 1 <= 8) by discriminate.
  destruct (network_image_sizes 8 28 H) as [Hiff Hmix].
  split; [exact H |]. split; [| exact Hmix].
  apply Hiff. split; discriminate.
Defined.

(** X10. The [ClassificationModel] of the basics walkthrough, whose first
    dense layer takes 972 features, accepts square one-channel images of
    exactly 28 or 29 pixels a side (FashionMNIST's 28 among them).  In
    training mode, which [model.train()] selects, it has to be given one
    label per image and returns the 10 scores per image together with the
    loss; called without labels it raises.  In evaluation mode, after
    [model.eval()], it returns the scores alone, with or without labels. *)
Theorem tut1_model_image_sizes (n s : Z) (labels : option Z) :
  (TorchShapes.tut1_forward true (n, 1, s, s) labels
   = Some (TorchShapes.ScoresAndLoss (n, 10))
   <-> 28 <= s <= 29 /\ labels = Some n) /\
  (TorchShapes.tut1_forward false (n, 1, s, s) labels
   = Some (TorchShapes.Scores (n, 10))
   <-> 28 <= s <= 29) /\
  TorchShapes.tut1_forward true (n, 1, s, s) None = None /\
  (forall (training : bool) (h w : Z) (r : TorchShapes.forward_result),
     TorchShapes.tut1_forward training (n, 1, h, w) labels = Some r ->
     r = if training then TorchShapes.ScoresAndLoss (n, 10)
         else TorchShapes.Scores (n, 10)).
Proof.
  assert (Hside : 12 <= s /\ 12 <= s /\
                  972 = 12 * ((s - 4) / 2 - 3) * ((s - 4) / 2 - 3)
                  <-> 28 <= s <= 29).
  { split.
    - intros (Hs & _ & Hfc).
      set (a := (s - 4) / 2 - 3) in *.
      assert (Ha : 1 <= a) by (subst a; Z.div_mod_to_equations; lia).
      assert (Haa : a * a = 81).
      { apply (Z.mul_cancel_l _ _ (12)); [lia | lia]. }
      assert (Ha9 : a = 9) by nia.
      subst a. Z.div_mod_to_equations. lia.
    - intros Hs.
      assert (Ha : (s - 4) / 2 - 3 = 9) by (Z.div_mod_to_equations; lia).
      rewrite Ha. repeat split; lia. }
  unfold TorchShapes.tut1_forward. split; [| split; [| split]].
  - rewrite ClassificationModel_forward_Some. split.
    + intros (Hh & Hw & Hfc & Hl & _). split; [| exact Hl].
      apply Hside. auto.
    + intros (Hs & Hl). apply Hside in Hs. destruct Hs as (Hh & Hw & Hfc).
      auto.
  - rewrite ClassificationModel_forward_Some. split.
    + intros (Hh & Hw & Hfc & _). apply Hside. auto.
    + intros Hs. apply Hside in Hs. destruct Hs as (Hh & Hw & Hfc). auto.
  - destruct (TorchShapes.ClassificationModel_forward 972 true (n, 1, s, s) None)
      as [r |] eqn:E; [| reflexivity].
    apply ClassificationModel_forward_Some in E.
    destruct E as (_ & _ & _ & Hl & _). discriminate Hl.
  - intros training h w r H. apply ClassificationModel_forward_Some in H.
    destruct H as (_ & _ & _ & Hr). destruct training; [exact (proj2 Hr) | exact Hr].
Qed.

Lemma tut1_model_image_sizes_witness :
  TorchShapes.tut1_forward true (16, 1, 28, 28) (Some 16)
  = Some (TorchShapes.ScoresAndLoss (16, 10)) /\
  TorchShapes.tut1_forward false (16, 1, 28, 28) None
  = Some (TorchShapes.Scores (16, 10)) /\
  TorchShapes.Scores (16, 10) = TorchShapes.Scores (16, 10).
Proof.
  split; [| split].
  - apply (proj1 (tut1_model_image_sizes 16 28 (Some 16))).
    split; [split; discriminate | reflexivity].
  - apply (proj1 (proj2 (tut1_model_image_sizes 16 28 None))).
    split; discriminate.
  - exact (proj2 (proj2 (proj2 (tut1_model_image_sizes 16 28 None)))
             false 28 28 (TorchShapes.Scores (16, 10)) eq_refl).
Defined.

(** X11. The [ClassificationModel] of the data-loading walkthrough, whose
    first dense layer takes 41772 features, accepts square one-channel
    images of exactly 128 or 129 pixels a side: the 128 by 128 random
    images of the script fit.  The script leaves the model in training
    mode, where it has to be given one label per image and returns the 10
    scores per image together with the loss. *)
Theorem tut2_model_image_sizes (n s : Z) (labels : option Z) :
  (TorchShapes.tut2_forward true (n, 1, s, s) labels
   = Some (TorchShapes.ScoresAndLoss (n, 10))
   <-> 128 <= s <= 129 /\ labels = Some n) /\
  (forall r : TorchShapes.forward_result,
     TorchShapes.tut2_forward true (n, 1, s, s) labels = Some r ->
     r = TorchShapes.ScoresAndLoss (n, 10)).
Proof.
  assert (Hside : 12 <= s /\ 12 <= s /\
                  41772 = 12 * ((s - 4) / 2 - 3) * ((s - 4) / 2 - 3)
                  <-> 128 <= s <= 129).
  { split.
    - intros (Hs & _ & Hfc).
      set (a := (s - 4) / 2 - 3) in *.
      assert (Ha : 1 <= a) by (subst a; Z.div_mod_to_equations; lia).
      assert (Haa : a * a = 3481).
      { apply (Z.mul_cancel_l _ _ (12)); [lia | lia]. }
      assert (Ha59 : a = 59) by nia.
      subst a. Z.div_mod_to_equations. lia.
    - intros Hs.
      assert (Ha : (s - 4) / 2 - 3 = 59) by (Z.div_mod_to_equations; lia).
      rewrite Ha. repeat split; lia. }
  unfold TorchShapes.tut2_forward. split.
  - rewrite ClassificationModel_forward_Some. split.
    + intros (Hh & Hw & Hfc & Hl & _). split; [| exact Hl].
      apply Hside. auto.
    + intros (Hs & Hl). apply Hside in Hs. destruct Hs as (Hh & Hw & Hfc).
      auto.
  - intros r H. apply ClassificationModel_forward_Some in H.
    destruct H as (_ & _ & _ & _ & Hr). exact Hr.
Qed.

Lemma tut2_model_image_sizes_witness :
  (128 <= 128 <= 129 /\ Some 16 = Some 16) /\
  TorchShapes.tut2_forward true (16, 1, 128, 128) (Some 16)
  = Some (TorchShapes.ScoresAndLoss (16, 10)) /\
  TorchShapes.ScoresAndLoss (16, 10) = TorchShapes.ScoresAndLoss (16, 10).
Proof.
  assert (H : 128 <= 128 <= 129 /\ Some 16 = Some 16)
    by (split; [split; discriminate | reflexivity]).
  split; [exact H |]. split.
  - exact (proj2 (proj1 (tut2_model_image_sizes 16 128 (Some 16))) H).
  - exact (proj2 (tut2_model_image_sizes 16 128 (Some 16))
             (TorchShapes.ScoresAndLoss (16, 10)) eq_refl).
Defined.

(** ** FashionMNIST walkthrough: evaluation and the sample figure *)

Section EvaluationFacts.

Import FashionMNIST.

Lemma combine_app_same {A B : Type} (a b : list A) (c d : list B) :
  List.length a = List.length c ->
  combine (a ++ b) (c ++ d) = combine a c ++ combine b d.
Proof.
  revert c. induction a as [| x a IH]; intros [| y c] H; try discriminate.
  - reflexivity.
  - cbn. f_equal. apply IH. injection H as H. exact H.
Qed.

Lemma matches_app (a b c d : list Z) :
  List.length a = List.length c ->
  matches (a ++ b) (c ++ d) = (matches a c + matches b d)%nat.
Proof.
  intros H. unfold matches.
  rewrite combine_app_same by exact H.
  rewrite filter_app, length_app. reflexivity.
Qed.

Lemma matches_same (l : list Z) : matches l l = List.length l.
Proof.
  unfold matches. induction l as [| x l IH]; [reflexivity |].
  cbn. rewrite Z.eqb_refl. cbn. f_equal. exact IH.
Qed.

Variable Data : Type.
Variable predicted_classes : Data -> list Z.

(** The loop appends batch after batch: what it has collected after the
    loader is the concatenation, in loader order. *)
Lemma collect_from (loader : list (Data * list Z)) (acc : list Z * list Z) :
  fold_left
    (fun acc batch =>
       (fst acc ++ predicted_classes (fst batch), snd acc ++ snd batch))
    loader acc
  = (fst acc ++ List.concat (map (fun batch => predicted_classes (fst batch)) loader),
     snd acc ++ List.concat (map snd loader)).
Proof.
  revert acc. induction loader as [| batch rest IH]; intros acc.
  - cbn. rewrite !app_nil_r. destruct acc; reflexivity.
  - cbn [fold_left map List.concat]. rewrite IH. cbn [fst snd].
    rewrite <- !app_assoc. reflexivity.
Qed.

(** Matches and samples add up over the batches. *)
Lemma matches_concat (loader : list (Data * list Z)) :
  (forall batch, In batch loader ->
     List.length (predicted_classes (fst batch)) = List.length (snd batch)) ->
  matches (List.concat (map snd loader))
    (List.concat (map (fun batch => predicted_classes (fst batch)) loader))
  = list_sum (map (fun batch => matches (snd batch) (predicted_classes (fst batch)))
                loader) /\
  List.length (List.concat (map (fun batch => predicted_classes (fst batch)) loader))
  = List.length (List.concat (map snd loader)) /\
  List.length (List.concat (map snd loader))
  = list_sum (map (fun batch => List.length (snd batch)) loader).
Proof.
  induction loader as [| batch rest IH]; intros Hall.
  - repeat split.
  - assert (Hb := Hall batch (or_introl eq_refl)).
    destruct IH as (Hm & Hl & Hs);
      [intros b Hin; apply Hall; right; exact Hin |].
    cbn [map List.concat list_sum].
    rewrite matches_app by (symmetry; exact Hb).
    rewrite !length_app, Hm, Hl, Hs, Hb. repeat split.
Qed.

End EvaluationFacts.

(** X14. The evaluation loop of the basics walkthrough collects
    predictions and labels in loader order, and the accuracy it prints is
    weighted by samples: 100 times the matches of all batches over the
    samples of all batches (not the mean of per-batch accuracies).  A model
    that predicts every label reports 100. *)
Theorem eval_accuracy_sample_weighted
  (Data : Type) (predicted_classes : Data -> list Z)
  (test_dataloader : list (Data * list Z)) :
  (forall batch, In batch test_dataloader ->
     List.length (predicted_classes (fst batch)) = List.length (snd batch)) ->
  (exists batch, In batch test_dataloader /\ snd batch <> []) ->
  let hits :=
    list_sum (map (fun batch =>
                     FashionMNIST.matches (snd batch) (predicted_classes (fst batch)))
                test_dataloader) in
  let samples :=
    list_sum (map (fun batch => List.length (snd batch)) test_dataloader) in
  FashionMNIST.collect predicted_classes test_dataloader
  = (List.concat (map (fun batch => predicted_classes (fst batch)) test_dataloader),
     List.concat (map snd test_dataloader)) /\
  FashionMNIST.eval_accuracy predicted_classes test_dataloader
  = Ok (100 * (inject_Z (Z.of_nat hits) / inject_Z (Z.of_nat samples)))%Q /\
  ((forall batch, In batch test_dataloader ->
      predicted_classes (fst batch) = snd batch) ->
   (100 * (inject_Z (Z.of_nat hits) / inject_Z (Z.of_nat samples)) == 100)%Q).
Proof.
  intros Hall (sample & Hin & Hne) hits samples.
  assert (Hcollect :
            FashionMNIST.collect predicted_classes test_dataloader
            = (List.concat (map (fun batch => predicted_classes (fst batch))
                         test_dataloader),
               List.concat (map snd test_dataloader))).
  { unfold FashionMNIST.collect. cbn zeta. rewrite collect_from. reflexivity. }
  destruct (matches_concat Data predicted_classes test_dataloader Hall)
    as (Hm & Hl & Hs).
  assert (Hpos : samples <> O).
  { subst samples. clear - Hin Hne.
    induction test_dataloader as [| b rest IH]; [destruct Hin |].
    unfold list_sum in *. cbn [map fold_right]. destruct Hin as [-> | Hin].
    - destruct (snd sample); [contradiction | cbn [List.length]; lia].
    - specialize (IH Hin). lia. }
  split; [exact Hcollect |]. split.
  - unfold FashionMNIST.eval_accuracy. cbn zeta. rewrite Hcollect. cbn [fst snd].
    unfold FashionMNIST.accuracy_score.
    rewrite Hl, Nat.eqb_refl. cbn [negb]. rewrite Hs. fold samples.
    destruct (Nat.eqb_spec samples 0) as [E | _]; [contradiction |].
    rewrite Hm. reflexivity.
  - intros Hperfect.
    assert (Hhits : hits = samples).
    { subst hits samples. f_equal. apply map_ext_in. intros b Hb.
      rewrite (Hperfect b Hb). apply matches_same. }
    rewrite Hhits.
    assert (Hn : (0 < inject_Z (Z.of_nat samples))%Q)
      by (apply inject_nat_pos; exact Hpos).
    field. lra.
Qed.

Lemma eval_accuracy_sample_weighted_witness :
  let predicted := fun _ : unit => [3; 1; 5]%Z in
  let loader' := [(tt, [3; 1; 5]%Z)] in
  (forall batch, In batch loader' ->
     List.length (predicted (fst batch)) = List.length (snd batch)) /\
  (exists batch, In batch loader' /\ snd batch <> []) /\
  FashionMNIST.eval_accuracy predicted loader'
  = Ok (100 * (inject_Z 3 / inject_Z 3))%Q.
Proof.
  cbv zeta.
  assert (H1 : forall batch, In batch [(tt, [3; 1; 5]%Z)] ->
            List.length ((fun _ : unit => [3; 1; 5]%Z) (fst batch))
            = List.length (snd batch))
    by (intros batch [<- | []]; reflexivity).
  assert (H2 : exists batch, In batch [(tt, [3; 1; 5]%Z)] /\ snd batch <> [])
    by (exists (tt, [3; 1; 5]%Z); split; [left; reflexivity | discriminate]).
  split; [exact H1 |]. split; [exact H2 |].
  exact (proj1 (proj2 (eval_accuracy_sample_weighted unit
                         (fun _ => [3; 1; 5]%Z) [(tt, [3; 1; 5]%Z)] H1 H2))).
Defined.

Section PlotFacts.

Import FashionMNISTPlot.

(** The class name a label in range selects. *)
Lemma classes_item_in_range (label : Z) :
  0 <= label < 10 ->
  classes_item label = Ok (nth (Z.to_nat label) classes EmptyString).
Proof.
  intros H.
  assert (Hc : label = 0 \/ label = 1 \/ label = 2 \/ label = 3 \/ label = 4 \/
               label = 5 \/ label = 6 \/ label = 7 \/ label = 8 \/ label = 9)
    by lia.
  repeat (destruct Hc as [-> | Hc]; [reflexivity |]). subst. reflexivity.
Qed.

Lemma classes_item_out_of_range (label : Z) :
  label < -10 \/ 10 <= label -> classes_item label = Raise IndexError.
Proof.
  intros H. unfold classes_item. cbn zeta.
  change (Z.of_nat (List.length classes)) with 10.
  destruct (Z.ltb_spec label 0) as [Hn | Hn].
  - destruct (Z.ltb_spec (label + 10) 0); [reflexivity | lia].
  - destruct (Z.ltb_spec label 0); [lia |]. cbn [orb].
    destruct (Z.leb_spec 10 label); [reflexivity | lia].
Qed.

Lemma classes_item_raises (label : Z) (e : exn) :
  classes_item label = Raise e -> e = IndexError.
Proof.
  unfold classes_item. cbn zeta.
  destruct (_ || _); [intros H; injection H as <-; reflexivity |].
  destruct (nth_error _ _); [discriminate |].
  intros H. injection H as <-. reflexivity.
Qed.

Lemma subplot_on_grid (i : Z) :
  0 <= i < 15 -> subplot 5 5 (i + 1) = Ok (i + 1).
Proof.
  intros H. unfold subplot.
  destruct (Z.ltb_spec (i + 1) 1); [lia |].
  destruct (Z.ltb_spec (5 * 5) (i + 1)); [lia | reflexivity].
Qed.

(** The loop from iteration [i] on, over labels in range. *)
Lemma plot_from_ok (labels : list Z) :
  forall i : Z,
    0 <= i <= 15 ->
    Forall (fun label => 0 <= label < 10) (firstn (Z.to_nat (15 - i)) labels) ->
    exists figure : list (Z * string),
      plot_from i labels = Ok figure /\
      map fst figure
      = map (fun k => i + Z.of_nat k + 1) (seq 0 (List.length figure)) /\
      map snd figure
      = map (fun label => nth (Z.to_nat label) classes EmptyString)
          (firstn (Z.to_nat (15 - i)) labels).
Proof.
  induction labels as [| label rest IH]; intros i Hi Hall.
  - exists []. rewrite firstn_nil. repeat split.
  - cbn [plot_from]. destruct (Z.eqb_spec i 15) as [-> | Hne].
    + exists []. repeat split.
    + replace (Z.to_nat (15 - i)) with (S (Z.to_nat (15 - (i + 1)))) in * by lia.
      cbn [firstn] in *.
      apply Forall_cons_iff in Hall. destruct Hall as [Hlabel Hrest].
      destruct (IH (i + 1) ltac:(lia) Hrest) as (later & Hlater & Hpos & Htitles).
      rewrite subplot_on_grid by lia. cbn [rbind].
      rewrite classes_item_in_range by exact Hlabel. cbn [rbind].
      rewrite Hlater. cbn [rbind].
      eexists. split; [reflexivity |].
      cbn [map fst snd List.length seq]. split.
      * f_equal; [lia |]. rewrite Hpos, <- seq_shift, map_map.
        apply map_ext. intros k. lia.
      * f_equal. exact Htitles.
Qed.

Lemma plot_from_raises (labels : list Z) :
  forall (i : Z) (e : exn),
    0 <= i <= 15 -> plot_from i labels = Raise e -> e = IndexError.
Proof.
  induction labels as [| label rest IH]; intros i e Hi; [discriminate |].
  cbn [plot_from]. destruct (Z.eqb_spec i 15) as [-> | Hne]; [discriminate |].
  rewrite subplot_on_grid by lia. cbn [rbind].
  destruct (classes_item label) as [title | e'] eqn:Hitem; cbn [rbind].
  - destruct (plot_from (i + 1) rest) as [later | e'] eqn:Hlater; cbn [rbind];
      [discriminate |].
    intros H. injection H as <-. apply (IH (i + 1) e'); [lia | exact Hlater].
  - intros H. injection H as <-. exact (classes_item_raises _ _ Hitem).
Qed.

Lemma plot_from_bad_label (labels : list Z) :
  forall i : Z,
    0 <= i <= 15 ->
    Exists (fun label => label < -10 \/ 10 <= label)
      (firstn (Z.to_nat (15 - i)) labels) ->
    plot_from i labels = Raise IndexError.
Proof.
  induction labels as [| label rest IH]; intros i Hi Hbad.
  - rewrite firstn_nil in Hbad. inversion Hbad.
  - cbn [plot_from]. destruct (Z.eqb_spec i 15) as [-> | Hne].
    + cbn in Hbad. inversion Hbad.
    + replace (Z.to_nat (15 - i)) with (S (Z.to_nat (15 - (i + 1)))) in Hbad by lia.
      cbn [firstn] in Hbad.
      rewrite subplot_on_grid by lia. cbn [rbind].
      apply Exists_cons in Hbad. destruct Hbad as [Hlabel | Hrest].
      * rewrite classes_item_out_of_range by exact Hlabel. reflexivity.
      * destruct (classes_item label) as [title | e] eqn:Hitem; cbn [rbind].
        -- rewrite (IH (i + 1) ltac:(lia) Hrest). reflexivity.
        -- rewrite (classes_item_raises _ _ Hitem). reflexivity.
Qed.

End PlotFacts.

(** X15. The sample figure of the basics walkthrough shows the first 15
    samples of the data set, or all of them if there are fewer: with labels
    0..9 the loop fills grid positions 1, 2, ... in order, each titled with
    the class name of its label, and stops after position 15 of the 5 by 5
    grid.  It never asks for a position off the grid; the only way it
    fails is [IndexError], which a label below -10 or above 9 among the
    first 15 does raise. *)
Theorem plot_samples_first_fifteen (labels : list Z) :
  (Forall (fun label => 0 <= label < 10) (firstn 15 labels) ->
   exists figure : list (Z * string),
     FashionMNISTPlot.plot_samples labels = Ok figure /\
     List.length figure = Nat.min 15 (List.length labels) /\
     map fst figure = map (fun k => Z.of_nat k + 1) (seq 0 (List.length figure)) /\
     map snd figure
     = map (fun label => nth (Z.to_nat label) FashionMNISTPlot.classes EmptyString)
         (firstn 15 labels)) /\
  (Exists (fun label => label < -10 \/ 10 <= label) (firstn 15 labels) ->
   FashionMNISTPlot.plot_samples labels = Raise IndexError) /\
  (forall e : exn,
     FashionMNISTPlot.plot_samples labels = Raise e -> e = IndexError).
Proof.
  unfold FashionMNISTPlot.plot_samples. split; [| split].
  - intros Hall.
    destruct (plot_from_ok labels 0 ltac:(lia) Hall)
      as (figure & Hrun & Hpos & Htitles).
    exists figure. split; [exact Hrun |].
    cbn in Htitles. split; [| split; [exact Hpos | exact Htitles]].
    rewrite <- (length_map snd figure), Htitles, length_map, length_firstn.
    reflexivity.
  - apply (plot_from_bad_label labels 0). lia.
  - intros e. apply (plot_from_raises labels 0). lia.
Qed.

Lemma plot_samples_first_fifteen_witness :
  let labels := [9; 0; 0; 3]%Z in
  Forall (fun label => 0 <= label < 10) (firstn 15 labels) /\
  exists figure : list (Z * string),
    FashionMNISTPlot.plot_samples labels = Ok figure /\
    List.length figure = 4%nat /\
    map snd figure = ["Ankle boot"; "T-shirt"; "T-shirt"; "Dress"]%string.
Proof.
  cbv zeta.
  assert (H : Forall (fun label => 0 <= label < 10) (firstn 15 [9; 0; 0; 3]))
    by (repeat constructor; discriminate).
  split; [exact H |].
  destruct (proj1 (plot_samples_first_fifteen [9; 0; 0; 3]) H)
    as (figure & Hrun & Hlen & _ & Htitles).
  exists figure. split; [exact Hrun |]. split; [exact Hlen | exact Htitles].
Defined.

(** ** Efficient data loading: more on timers and teardown *)

(** X16. [validate_model_performance] cleans up after itself for every
    choice of arguments: with a positive combined batch size (and, with
    synthetic data, a data set of at least one step), started in a world
    where every loader is torn down, it returns normally, has created
    exactly one more loader, has torn it down, and has printed four
    lines. *)
Theorem validate_model_performance_teardown
  (wall_clock : nat -> Q) (dataset_len di bs rep nw : Z) (synthetic : bool)
  (w : DataLoading.world) :
  (forall m n : nat, (m < n)%nat -> (wall_clock m < wall_clock n)%Q) ->
  (0 < bs * di * rep)%Z ->
  (synthetic = true -> (bs * di * rep <= dataset_len)%Z) ->
  DataLoadingTrace.settled w ->
  exists w' : DataLoading.world,
    DataLoading.validate_model_performance wall_clock
      dataset_len di bs rep nw synthetic w = (Ok tt, w') /\
    DataLoadingTrace.settled w' /\
    DataLoadingTrace.created (DataLoading.events w')
    = DataLoadingTrace.created (DataLoading.events w)
      ++ [DataLoading.next_loader w] /\
    List.length (DataLoading.stdout w')
    = (List.length (DataLoading.stdout w) + 4)%nat.
Proof.
  intros Hclock Hpos Hsyn Hw.
  destruct (validate_model_performance_settles wall_clock Hclock
              dataset_len di bs rep nw synthetic w Hpos Hsyn Hw)
    as (w' & Hrun & Hs & _ & Hc).
  exists w'. split; [exact Hrun |]. split; [exact Hs |]. split; [exact Hc |].
  assert (Hsteps : synthetic = true -> (0 < dataset_len / (bs * di * rep))%Z).
  { intros E. apply Z.div_str_pos. split; [exact Hpos | exact (Hsyn E)]. }
  rewrite validate_model_performance_run in Hrun.
  - injection Hrun as <-. cbn [DataLoading.stdout].
    rewrite length_app. reflexivity.
  - exact Hpos.
  - apply (clock_gap wall_clock Hclock). lia.
  - apply (clock_gap wall_clock Hclock).
    destruct synthetic; [specialize (Hsteps eq_refl) |]; lia.
Qed.

Lemma validate_model_performance_teardown_witness :
  let wall_clock := fun n : nat => inject_Z (Z.of_nat n) in
  (forall m n : nat, (m < n)%nat -> (wall_clock m < wall_clock n)%Q) /\
  (0 < 16 * 50 * 4)%Z /\
  DataLoadingTrace.settled DataLoading.initial_world /\
  exists w' : DataLoading.world,
    DataLoading.validate_model_performance wall_clock 10000 50 16 4 4 true
      DataLoading.initial_world = (Ok tt, w') /\
    DataLoadingTrace.settled w' /\
    DataLoadingTrace.created (DataLoading.events w') = [0%nat].
Proof.
  cbv zeta.
  assert (Hclock : forall m n : nat, (m < n)%nat ->
            (inject_Z (Z.of_nat m) < inject_Z (Z.of_nat n))%Q).
  { intros m n Hmn. rewrite <- Zlt_Qlt. apply Nat2Z.inj_lt. exact Hmn. }
  assert (Hpos : (0 < 16 * 50 * 4)%Z) by reflexivity.
  split; [exact Hclock |]. split; [exact Hpos |].
  split; [exact initial_world_settled |].
  destruct (validate_model_performance_teardown
              (fun n : nat => inject_Z (Z.of_nat n)) 10000 50 16 4 4 true
              DataLoading.initial_world Hclock Hpos
              (fun _ => ltac:(discriminate)) initial_world_settled)
    as (w' & Hrun & Hs & Hc & _).
  exists w'. split; [exact Hrun |]. split; [exact Hs | exact Hc].
Defined.

(** X17. Nothing guards the teardown: if the first timer measures zero
    seconds, [validate_model_performance] leaves through
    [ZeroDivisionError] before printing anything, and the loader it created
    is never terminated. *)
Theorem zero_timer_leaves_loader
  (wall_clock : nat -> Q) (dataset_len di bs rep nw : Z) (synthetic : bool)
  (w w0 w1 : DataLoading.world) (training_data : DataLoading.DataLoader) (s : Q) :
  DataLoadingTrace.settled w ->
  DataLoading.new_DataLoader
    (let opts :=
       DataLoading.replicationFactor
         (DataLoading.deviceIterations DataLoading.new_Options di) rep in
     if synthetic then DataLoading.enableSyntheticData opts true else opts)
    dataset_len bs w
  = (Ok training_data, w0) ->
  DataLoadingTrace.timed wall_clock
    (DataLoading.for_in training_data (fun _ => DataLoading.ret tt)) w0 w1 s ->
  (s == 0)%Q ->
  DataLoading.validate_model_performance wall_clock
    dataset_len di bs rep nw synthetic w = (Raise ZeroDivisionError, w1) /\
  DataLoading.stdout w1 = DataLoading.stdout w /\
  In (DataLoading.Created (DataLoading.loader_id training_data))
    (DataLoading.events w1) /\
  ~ In (DataLoading.Terminated (DataLoading.loader_id training_data))
      (DataLoading.events w1) /\
  ~ DataLoading.loaders_torn_down (DataLoading.events w1).
Proof.
  intros [_ Hbelow] Hnew [Hloop ->] Hzero.
  assert (Hrun : DataLoading.validate_model_performance wall_clock
                   dataset_len di bs rep nw synthetic w
                 = (Raise ZeroDivisionError, w1)).
  { unfold DataLoading.validate_model_performance.
    rewrite (bind_ok _ _ _ _ _ Hnew).
    erewrite bind_ok; [| apply with_catchtime_run; exact Hloop].
    erewrite bind_raise; [reflexivity |].
    apply py_truediv_zero. exact Hzero. }
  assert (Hcomb : (0 < bs * di * rep)%Z).
  { unfold DataLoading.new_DataLoader in Hnew.
    destruct synthetic; cbn in Hnew;
      destruct (Z.leb_spec (bs * di * rep) 0); try discriminate; lia. }
  rewrite new_DataLoader_run in Hnew by (destruct synthetic; exact Hcomb).
  injection Hnew as <- <-.
  rewrite (for_in_run _ 0 pass_body) in Hloop.
  injection Hloop as <-.
  cbn [DataLoading.stdout DataLoading.events DataLoading.loader_id
       DataLoading.len DataLoading.next_loader].
  set (n := Z.to_nat _). set (id := DataLoading.next_loader w) in *.
  assert (Hnot : ~ In (DataLoading.Terminated id)
                   ((DataLoading.events w ++ [DataLoading.Created id])
                    ++ DataLoadingTrace.iteration_events id n)).
  { intros Hin. apply in_app_or in Hin. destruct Hin as [Hin | Hin].
    - apply in_app_or in Hin. destruct Hin as [Hin | [Hin | []]]; [| discriminate].
      unfold DataLoadingTrace.ids_below in Hbelow.
      rewrite Forall_forall in Hbelow. specialize (Hbelow _ Hin).
      cbn in Hbelow. lia.
    - pose proof (iteration_events_iterate id n) as Hiter.
      rewrite forallb_forall in Hiter. specialize (Hiter _ Hin).
      discriminate. }
  assert (Hin : In (DataLoading.Created id)
                  ((DataLoading.events w ++ [DataLoading.Created id])
                   ++ DataLoadingTrace.iteration_events id n)).
  { apply in_or_app. left. apply in_or_app. right. left. reflexivity. }
  split; [exact Hrun |]. split; [reflexivity |].
  split; [exact Hin |]. split; [exact Hnot |].
  intros Hdown. destruct (Hdown _ Hin) as (before & after & Heq & _).
  apply Hnot. rewrite Heq. apply in_or_app. right. left. reflexivity.
Qed.

Lemma zero_timer_leaves_loader_witness :
  let stopped_clock := fun _ : nat => 0%Q in
  DataLoadingTrace.settled DataLoading.initial_world /\
  exists w1 : DataLoading.world,
    DataLoading.validate_model_performance stopped_clock 10000 50 16 1 4 false
      DataLoading.initial_world = (Raise ZeroDivisionError, w1) /\
    ~ DataLoading.loaders_torn_down (DataLoading.events w1).
Proof.
  cbv zeta. split; [exact initial_world_settled |].
  let r0 := eval vm_compute in
        (DataLoading.new_DataLoader
           (DataLoading.replicationFactor
              (DataLoading.deviceIterations DataLoading.new_Options 50) 1)
           10000 16 DataLoading.initial_world) in
  match r0 with
  | (Ok ?td, ?w0) =>
      let r1 := eval vm_compute in
            (DataLoading.for_in td (fun _ => DataLoading.ret tt) w0) in
      match r1 with
      | (Ok tt, ?w1) =>
          destruct (zero_timer_leaves_loader (fun _ : nat => 0%Q)
                      10000 50 16 1 4 false
                      DataLoading.initial_world w0 w1 td 0%Q)
            as (Hrun & _ & _ & _ & Hleak);
          [ exact initial_world_settled
          | vm_compute; reflexivity
          | split; vm_compute; reflexivity
          | reflexivity
          | exists w1; split; [exact Hrun | exact Hleak] ]
      end
  end.
Defined.

(** X19. The item count behind every throughput figure is the data set
    rounded down to whole loader steps: [len(training_data)] times device
    iterations times batch size times replication factor never exceeds the
    data set and falls short of it by less than one combined batch. *)
Theorem throughput_counts_whole_steps
  (opts : DataLoading.Options) (dataset_len batch_size : Z)
  (w w' : DataLoading.world) (training_data : DataLoading.DataLoader) :
  (0 <= dataset_len)%Z ->
  DataLoading.new_DataLoader opts dataset_len batch_size w
  = (Ok training_data, w') ->
  let combined :=
    (batch_size * DataLoading.device_iterations_of opts
     * DataLoading.replication_factor_of opts)%Z in
  let items :=
    (DataLoading.len training_data * DataLoading.device_iterations_of opts
     * batch_size * DataLoading.replication_factor_of opts)%Z in
  (0 < combined)%Z /\
  (0 <= DataLoading.len training_data)%Z /\
  (items = dataset_len - dataset_len mod combined)%Z /\
  (0 <= dataset_len - items < combined)%Z.
Proof.
  intros Hlen Hnew combined items.
  assert (Hpos : (0 < combined)%Z).
  { unfold DataLoading.new_DataLoader in Hnew. fold combined in Hnew.
    destruct (Z.leb_spec combined 0); [discriminate | assumption]. }
  rewrite new_DataLoader_run in Hnew by exact Hpos.
  injection Hnew as <- _. subst items. cbn [DataLoading.len]. fold combined.
  pose proof (Z.div_mod dataset_len combined ltac:(lia)) as Hdm.
  pose proof (Z.mod_pos_bound dataset_len combined Hpos) as Hr.
  pose proof (Z.div_pos dataset_len combined Hlen Hpos) as Hq.
  subst combined. repeat split; try assumption; nia.
Qed.

Lemma throughput_counts_whole_steps_witness :
  let opts :=
    DataLoading.replicationFactor
      (DataLoading.deviceIterations DataLoading.new_Options 50) 4 in
  (0 <= 10000)%Z /\
  exists (training_data : DataLoading.DataLoader) (w' : DataLoading.world),
    DataLoading.new_DataLoader opts 10000 16 DataLoading.initial_world
    = (Ok training_data, w') /\
    (DataLoading.len training_data * 50 * 16 * 4 = 9600)%Z.
Proof.
  cbv zeta.
  assert (H : (0 <= 10000)%Z) by discriminate.
  split; [exact H |]. eexists _, _.
  edestruct (throughput_counts_whole_steps
               (DataLoading.replicationFactor
                  (DataLoading.deviceIterations DataLoading.new_Options 50) 4)
               10000 16 DataLoading.initial_world) as (_ & _ & Hitems & _).
  - exact H.
  - reflexivity.
  - split; [reflexivity | exact Hitems].
Defined.

(** ** PopTorch MNIST: how much training a command line buys *)

Section TrainingLoopFacts.

Import PopTorchMNISTLoops.

Lemma py_range_length (start stop : Z) :
  List.length (py_range start stop) = Z.to_nat (stop - start).
Proof. unfold py_range. rewrite length_map, length_seq. reflexivity. Qed.

Lemma py_range_bounds (start stop x : Z) :
  In x (py_range start stop) -> start <= x < stop.
Proof.
  unfold py_range. intros H. apply in_map_iff in H.
  destruct H as (k & <- & Hk). apply in_seq in Hk. lia.
Qed.

Lemma flat_map_constant_length {A B : Type} (f : A -> list B) (l : list A) (m : nat) :
  (forall a, List.length (f a) = m) ->
  List.length (flat_map f l) = (List.length l * m)%nat.
Proof.
  intros Hf. induction l as [| a l IH]; [reflexivity |].
  cbn [flat_map List.length]. rewrite length_app, Hf, IH. lia.
Qed.

End TrainingLoopFacts.

(** X20. For every command line and training set of [N >= 0] samples,
    with [b] the batch size, [tb] the test batch size, [e] the epoch count
    and [lr] the learning rate the command line gives (8, 80, 10 and 0.05
    by default): if [b <= 0], [tb <= 0] or [lr < 0], constructing the
    loaders and the optimizer raises [ValueError] and nothing is trained;
    otherwise the training loop calls the model
    [max(e, 0) * (N // (50 * b))] times, with epochs numbered 1..e and steps
    numbered from 0 in each.  So [--epochs 0] (or less), or a batch size
    above [N / 50], trains nothing, and no epoch sees more than [N]
    samples. *)
Theorem training_schedule (argv : list PopTorchMNIST.cli_arg) (N : Z) :
  0 <= N ->
  let setup := PopTorchMNIST.script argv in
  let b := match PopTorchMNIST.given PopTorchMNIST.pick_batch_size argv with
           | Some v => v
           | None => 8
           end in
  let tb := match PopTorchMNIST.given PopTorchMNIST.pick_test_batch_size argv with
            | Some v => v
            | None => 80
            end in
  let e := match PopTorchMNIST.given PopTorchMNIST.pick_epochs argv with
           | Some v => v
           | None => 10
           end in
  let lr := match PopTorchMNIST.given PopTorchMNIST.pick_lr argv with
            | Some v => v
            | None => 0.05%Q
            end in
  (b <= 0 \/ tb <= 0 \/ (lr < 0)%Q ->
   PopTorchMNISTLoops.training_loop setup N = Raise ValueError) /\
  (0 < b -> 0 < tb -> (0 <= lr)%Q ->
   exists calls : list (Z * Z),
     PopTorchMNISTLoops.training_loop setup N = Ok calls /\
     List.length calls = (Z.to_nat e * Z.to_nat (N / (50 * b)))%nat /\
     (forall epoch step : Z,
        In (epoch, step) calls -> 1 <= epoch <= e /\ 0 <= step < N / (50 * b)) /\
     (e <= 0 \/ N < 50 * b -> calls = []) /\
     N / (50 * b) * (50 * b) <= N).
Proof.
  intros HN setup b tb e lr.
  assert (Hb : PopTorchMNISTLoops.combined_batch_size
                 (PopTorchMNIST.training_data setup) = b * 50).
  { subst setup b. unfold PopTorchMNISTLoops.combined_batch_size. cbn.
    unfold PopTorchMNIST.parse_args. rewrite fold_store_batch_size.
    reflexivity. }
  assert (Htb : PopTorchMNISTLoops.combined_batch_size
                  (PopTorchMNIST.test_data setup) = tb * 1).
  { subst setup tb. unfold PopTorchMNISTLoops.combined_batch_size. cbn.
    unfold PopTorchMNIST.parse_args. rewrite fold_store_test_batch_size.
    reflexivity. }
  assert (He : PopTorchMNIST.loop_epochs setup = e).
  { subst setup e. cbn. unfold PopTorchMNIST.parse_args.
    apply fold_store_epochs. }
  assert (Hlr : PopTorchMNIST.optimizer_lr (PopTorchMNIST.training_model setup)
                = lr).
  { subst setup lr. cbn. unfold PopTorchMNIST.parse_args.
    apply fold_store_lr. }
  assert (Hdrop : PopTorchMNIST.drop_last (PopTorchMNIST.training_data setup) = true)
    by reflexivity.
  unfold PopTorchMNISTLoops.training_loop, PopTorchMNISTLoops.loader_len,
    PopTorchMNISTLoops.new_DataLoader, PopTorchMNISTLoops.new_SGD.
  rewrite Hb, Htb, He, Hlr, Hdrop. cbn zeta.
  destruct (Z.leb_spec (b * 50) 0) as [Lb | Lb]; cbn [rbind].
  { split; [reflexivity | intros Hpos; lia]. }
  destruct (Z.leb_spec (tb * 1) 0) as [Ltb | Ltb]; cbn [rbind].
  { split; [reflexivity | intros _ Hpos; lia]. }
  destruct (Qle_bool 0 lr) eqn:Elr; cbn [rbind].
  2:{ split; [reflexivity |]. intros _ _ Hpos.
      apply Qle_bool_iff in Hpos. congruence. }
  apply Qle_bool_iff in Elr. split.
  - intros [Hsmall | [Hsmall | Hsmall]]; [lia | lia |].
    exfalso. exact (Qlt_not_le _ _ Hsmall Elr).
  - intros Hpos _ _.
    replace (b * 50) with (50 * b) by ring.
    set (steps := N / (50 * b)).
    assert (Hsteps : 0 <= steps) by (apply Z.div_pos; lia).
    eexists. split; [reflexivity |]. split; [| split; [| split]].
    + rewrite (flat_map_constant_length _ _ (Z.to_nat steps)).
      * rewrite py_range_length. f_equal. lia.
      * intros epoch. rewrite length_map, py_range_length. f_equal. lia.
    + intros epoch step Hin. apply in_flat_map in Hin.
      destruct Hin as (epoch' & Hep & Hin). apply in_map_iff in Hin.
      destruct Hin as (step' & Heq & Hst). injection Heq as <- <-.
      apply py_range_bounds in Hep. apply py_range_bounds in Hst. lia.
    + intros [Hno | Hno].
      * unfold PopTorchMNISTLoops.py_range at 2.
        replace (Z.to_nat (e + 1 - 1)) with O by lia. reflexivity.
      * assert (Hz : steps = 0) by (subst steps; apply Z.div_small; lia).
        rewrite Hz. unfold PopTorchMNISTLoops.py_range at 1.
        cbn [Z.to_nat Z.sub seq map]. clear.
        induction (PopTorchMNISTLoops.py_range 1 (e + 1)) as [| x l IH];
          [reflexivity | exact IH].
    + pose proof (Z.mul_div_le N (50 * b) ltac:(lia)). lia.
Qed.

Lemma training_schedule_witness :
  (0 <= 60000 /\ 0 < 100 /\ 0 < 80 /\ (0 <= 0.05)%Q) /\
  (exists calls : list (Z * Z),
     PopTorchMNISTLoops.training_loop
       (PopTorchMNIST.script [PopTorchMNIST.Epochs 2; PopTorchMNIST.BatchSize 100])
       60000 = Ok calls /\
     List.length calls = 24%nat) /\
  PopTorchMNISTLoops.training_loop
    (PopTorchMNIST.script [PopTorchMNIST.TestBatchSize 0]) 60000
  = Raise ValueError.
Proof.
  assert (H : 0 <= 60000) by discriminate.
  assert (Hb : 0 < 100) by reflexivity.
  assert (Htb : 0 < 80) by reflexivity.
  assert (Hlr : (0 <= 0.05)%Q) by discriminate.
  split; [auto |]. split.
  - destruct (proj2 (training_schedule
                       [PopTorchMNIST.Epochs 2; PopTorchMNIST.BatchSize 100]
                       60000 H) Hb Htb Hlr)
      as (calls & Hrun & Hlen & _).
    exists calls. split; [exact Hrun | exact Hlen].
  - apply (proj1 (training_schedule [PopTorchMNIST.TestBatchSize 0] 60000 H)).
    right. left. discriminate.
Defined.
